(** * music21.graph.utilities: a shallow embedding and its properties

    The module [music21/graph/utilities.py] holds the helpers of music21's
    plotting code: [getExtendedModules], [accidentalLabelToUnicode],
    [userFormatsToFormat], [userValuesToValues] and [getColor].

    Modelling conventions.
    - Python text ([str]) is [String.string], one [ascii] per character:
      the text of the model is made of the characters U+0000 to U+00FF,
      and [String.length] is [len].  On these characters [str.lower] acts
      character by character: 'A'..'Z' and U+00C0..U+00DE (U+00D7
      excepted) are moved up by 32, every other one is left as it is.
      The glyphs of the accidental table lie above U+00FF; they can be
      given in UTF-8, since [accidentalLabelToUnicode] only searches and
      replaces ASCII modifiers, which acts the same on UTF-8 text.
    - A Python call either returns a value or raises: [result A].
    - Where Python 2 and Python 3 differ (the text of [str] of a float, the
      [%x] format applied to a float) the Python 3 behaviour is taken; the
      doctests of the module are written for Python 3. *)

From Stdlib Require Import Bool List String Ascii ZArith Lia.
From Stdlib Require DecimalString DecimalPos HexadecimalString.
From Stdlib Require Import Floats.SpecFloat.
Import ListNotations.

Local Open Scope string_scope.
Local Open Scope Z_scope.

(** ** Exceptions and results *)

(** [GraphException] is the one exception class the module defines and
    raises; the other constructors are Python built-in exceptions that
    reach the caller when nothing in the module catches them. *)
Inductive exn : Type :=
| GraphException (msg : string)
| IndexError
| ValueError
| TypeError
| AttributeError
| ImportError.

Inductive result (A : Type) : Type :=
| Ok (a : A)
| Raise (e : exn).

Arguments Ok {A} a.
Arguments Raise {A} e.

Definition bind {A B : Type} (r : result A) (k : A -> result B) : result B :=
  match r with
  | Ok a => k a
  | Raise e => Raise e
  end.

Notation "x <- r ;; k" := (bind r (fun x => k))
  (at level 61, r at next level, right associativity).

(** The class of an exception, which is what an [except] clause tests. *)
Inductive exn_kind : Type :=
| KGraphException | KIndexError | KValueError | KTypeError | KAttributeError
| KImportError.

Definition kind_of (e : exn) : exn_kind :=
  match e with
  | GraphException _ => KGraphException
  | IndexError => KIndexError
  | ValueError => KValueError
  | TypeError => KTypeError
  | AttributeError => KAttributeError
  | ImportError => KImportError
  end.

Definition message_of (e : exn) : string :=
  match e with
  | GraphException msg => msg
  | _ => ""
  end.

(** ** Python string operations *)

Module PyString.

Definition is_upper (c : ascii) : bool :=
  let n := N_of_ascii c in
  ((65 <=? n)%N && (n <=? 90)%N)
  || ((192 <=? n)%N && (n <=? 222)%N && negb (n =? 215)%N).

Definition lower_char (c : ascii) : ascii :=
  if is_upper c then ascii_of_N (N_of_ascii c + 32) else c.

(** [s.lower()] *)
Fixpoint lower (s : string) : string :=
  match s with
  | EmptyString => EmptyString
  | String c s' => String (lower_char c) (lower s')
  end.

(** [sub in s] for two strings. *)
Fixpoint contains (sub s : string) : bool :=
  prefix sub s ||
  match s with
  | EmptyString => false
  | String _ s' => contains sub s'
  end.

(** [s.replace(old, new)] for a non-empty [old]: a left-to-right scan
    that replaces each match and resumes after it.  [skip] counts the
    characters of the current match that are still to be passed over. *)
Fixpoint replace_from (old new : string) (skip : nat) (s : string) : string :=
  match s with
  | EmptyString => EmptyString
  | String c s' =>
      match skip with
      | S k => replace_from old new k s'
      | O =>
          if prefix old s
          then new ++ replace_from old new (Nat.pred (String.length old)) s'
          else String c (replace_from old new O s')
      end
  end.

(** With an empty [old], Python puts [new] before every character and
    at the end. *)
Fixpoint intersperse (new s : string) : string :=
  match s with
  | EmptyString => new
  | String c s' => new ++ String c (intersperse new s')
  end.

Definition replace (old new s : string) : string :=
  match old with
  | EmptyString => intersperse new s
  | String _ _ => replace_from old new O s
  end.

(** [x in t] for a tuple or list of strings. *)
Definition mem (x : string) (t : list string) : bool :=
  existsb (String.eqb x) t.

(** [(s[:n], s[n:])] *)
Fixpoint split_chars (n : nat) (s : string) : string * string :=
  match n, s with
  | S n', String c s' => let '(l, r) := split_chars n' s' in (String c l, r)
  | _, _ => (EmptyString, s)
  end.

Definition hex_char (n : N) : ascii :=
  nth (N.to_nat n) (list_ascii_of_string "0123456789abcdef") "0"%char.

Definition quote1 : ascii := "'".
Definition quote2 : ascii := ascii_of_N 34.
Definition backslash : ascii := ascii_of_N 92.

(** One byte in the text that [repr] gives for a [bytes] value. *)
Definition escape_byte (quote c : ascii) : string :=
  let n := N_of_ascii c in
  if Ascii.eqb c quote || Ascii.eqb c backslash
  then String backslash (String c "")
  else if (n =? 9)%N then String backslash "t"
  else if (n =? 10)%N then String backslash "n"
  else if (n =? 13)%N then String backslash "r"
  else if (n <? 32)%N || (127 <=? n)%N
       then String backslash
              (String "x" (String (hex_char (n / 16)) (String (hex_char (n mod 16)) "")))
  else String c "".

Fixpoint escape_bytes (quote : ascii) (b : string) : string :=
  match b with
  | EmptyString => EmptyString
  | String c b' => escape_byte quote c ++ escape_bytes quote b'
  end.

(** [str(b)] for a [bytes] value [b]: [b'...'], in double quotes when the
    value holds a single quote and no double quote. *)
Definition bytes_repr (b : string) : string :=
  let quote :=
    if contains (String quote1 "") b && negb (contains (String quote2 "") b)
    then quote2 else quote1 in
  String "b" (String quote (escape_bytes quote b ++ String quote "")).

End PyString.

(** ** Python values *)

(** A Python [float]: a binary64 number, in the canonical form that
    [valid_binary 53 1024] describes. *)
Definition float := spec_float.

Inductive pynum : Type :=
| PyInt (z : Z)
| PyFloat (f : float).

(** The values the functions of the module are applied to: text, byte
    strings, booleans, numbers, lists and tuples of numbers (as the color
    specifications are), and [None]. *)
Inductive pyobj : Type :=
| PyStr (s : string)
| PyBytes (b : string)
| PyBool (b : bool)
| PyNum (n : pynum)
| PyList (l : list pynum)
| PyTuple (l : list pynum)
| PyNone.

(** ** userFormatsToFormat *)

Definition FORMATS : list string :=
  ["horizontalbar"; "histogram"; "scatter"; "scatterweighted";
   "3dbars"; "colorgrid"; "horizontalbarweighted"].

Definition FORMAT_SYNONYMS : list (list string) :=
  [["horizontalbar"; "bar"; "horizontal"; "pianoroll"; "piano"];
   ["histogram"; "histo"; "count"];
   ["scatter"; "point"];
   ["scatterweighted"; "weightedscatter"; "weighted"];
   ["3dbars"; "3d"];
   ["colorgrid"; "grid"; "window"; "windowed"];
   ["horizontalbarweighted"; "barweighted"; "weightedbar"]].

(** [opt[0]]. *)
Definition first_of (opt : list string) : result string :=
  match opt with
  | x :: _ => Ok x
  | [] => Raise IndexError
  end.

(** The loop [for opt in FORMAT_SYNONYMS: if value in opt: return opt[0]],
    followed by [return value]. *)
Fixpoint scan_synonyms (value : string) (groups : list (list string))
  : result string :=
  match groups with
  | [] => Ok value
  | opt :: rest =>
      if PyString.mem value opt then first_of opt
      else scan_synonyms value rest
  end.

Definition normalize_name (value : string) : string :=
  let value := PyString.lower value in
  PyString.replace " " "" value.

(** A [bytes] value has [lower], and its [replace] refuses the text
    arguments; the other values have no [lower]. *)
Definition userFormatsToFormat (value : pyobj) : result string :=
  match value with
  | PyStr value => scan_synonyms (normalize_name value) FORMAT_SYNONYMS
  | PyBytes _ => Raise TypeError
  | _ => Raise AttributeError
  end.

(** ** userValuesToValues *)

Definition VALUES : list string :=
  ["pitch"; "pitchspace"; "ps"; "pitchclass"; "pc"; "duration";
   "quarterlength"; "offset"; "time"; "dynamic"; "dynamics"; "instrument"].

(** The [if]/[elif] chain of the loop body, on the normalized value. *)
Definition value_synonym (value : string) : string :=
  if PyString.mem value ["pitch"; "pitchspace"; "ps"] then "pitch"
  else if PyString.mem value ["pitchclass"; "pc"] then "pitchclass"
  else if PyString.mem value ["duration"; "quarterlength"] then "quarterlength"
  else if PyString.mem value ["offset"; "time"] then "offset"
  else if PyString.mem value ["dynamic"; "dynamics"] then "dynamics"
  else if PyString.mem value ["instrument"; "instruments"; "instrumentation"]
       then "instrument"
  else value.

(** [for value in valueList: ...; post.append(...)], with the list [post]
    threaded through the iterations.  A [bytes] element has [lower], and
    its [replace] refuses the text arguments ([TypeError]); the other
    elements that are not text have no [lower] ([AttributeError]). *)
Fixpoint values_loop (valueList : list pyobj) (post : list string)
  : result (list string) :=
  match valueList with
  | [] => Ok post
  | PyStr value :: rest =>
      let value := PyString.lower value in
      let value := PyString.replace " " "" value in
      values_loop rest (post ++ [value_synonym value])
  | PyBytes _ :: _ => Raise TypeError
  | _ :: _ => Raise AttributeError
  end.

Definition userValuesToValues (valueList : list pyobj) : result (list string) :=
  values_loop valueList [].

(** ** accidentalLabelToUnicode *)

Section Accidentals.

(** [pitch.unicodeFromModifier.items()]: the pairs of the dictionary of
    the pitch module, in the order the dictionary yields them. *)
Variable unicodeFromModifier : list (string * string).

Fixpoint scan_modifiers (items : list (string * string)) (label : string)
  : string :=
  match items with
  | [] => label
  | (modifier, unicodeAcc) :: rest =>
      if negb (modifier =? "")%string
         && PyString.contains modifier label
         && PyString.mem modifier ["-"; "#"]
      then PyString.replace modifier unicodeAcc label (* break *)
      else scan_modifiers rest label
  end.

(** The conversion of a Python 2 byte string to a unicode string keeps
    the text, so that step leaves [label] as it is. *)
Definition accidentalLabelToUnicode (label : pyobj) : pyobj :=
  match label with
  | PyStr label => PyStr (scan_modifiers unicodeFromModifier label)
  | other => other
  end.

End Accidentals.

(** The two entries of the pitch module's table that the function can use;
    the glyphs are U+266D and U+266F in UTF-8. *)
Definition flat_glyph : string :=
  String (ascii_of_N 226) (String (ascii_of_N 153) (String (ascii_of_N 173) "")).
Definition sharp_glyph : string :=
  String (ascii_of_N 226) (String (ascii_of_N 153) (String (ascii_of_N 175) "")).
Definition natural_glyph : string :=
  String (ascii_of_N 226) (String (ascii_of_N 153) (String (ascii_of_N 174) "")).

Definition sample_modifiers : list (string * string) :=
  [("", natural_glyph); ("#", sharp_glyph); ("-", flat_glyph)].

(** ** getExtendedModules *)

Inductive pymodule : Type := Module_ (name : string).

(** What the function reads from its environment: the names recorded in
    [_missingImport] and, for each [import] statement of the function,
    what executing it gives: the module, or the exception it raises. *)
Record import_env : Type := {
  missingImport : list string;
  import_matplotlib : result pymodule;
  import_Axes3D : result pymodule;
  import_collections : result pymodule;
  import_patches : result pymodule;
  import_pyplot : result pymodule;
  import_networkx : result pymodule
}.

Record ExtendedModules : Type := {
  matplotlib : pymodule;
  Axes3D : option pymodule;
  collections : pymodule;
  patches : pymodule;
  plt : pymodule;
  networkx : option pymodule
}.

(** [try: import ... except ImportError: ... = None]: an [ImportError]
    is caught, any other exception goes on. *)
Definition optional_import (r : result pymodule) : result (option pymodule) :=
  match r with
  | Ok m => Ok (Some m)
  | Raise ImportError => Ok None
  | Raise e => Raise e
  end.

Definition Axes3D_warning : string :=
  "mpl_toolkits.mplot3d.Axes3D could not be imported -- likely cause is an "
  ++ "old version of six.py (< 1.9.0) on your system somewhere".

(** The outcome comes with the warnings sent to [environLocal.warn]
    before the function returned or raised. *)
Definition getExtendedModules (env : import_env)
  : list string * result ExtendedModules :=
  if PyString.mem "matplotlib" (missingImport env) then
    ([], Raise (GraphException "could not find matplotlib, graphing is not allowed"))
  else
    match import_matplotlib env with
    | Raise e => ([], Raise e)
    | Ok matplotlib_ =>
        match optional_import (import_Axes3D env) with
        | Raise e => ([], Raise e)
        | Ok Axes3D_ =>
            let warnings :=
              match Axes3D_ with
              | None => [Axes3D_warning]
              | Some _ => []
              end in
            (warnings,
             collections_ <- import_collections env ;;
             patches_ <- import_patches env ;;
             plt_ <- import_pyplot env ;;
             networkx_ <- optional_import (import_networkx env) ;;
             Ok {| matplotlib := matplotlib_;
                   Axes3D := Axes3D_;
                   collections := collections_;
                   patches := patches_;
                   plt := plt_;
                   networkx := networkx_ |})
        end
    end.

(** ** Python numbers

    A Python [float] is an IEEE 754 binary64 number: [spec_float] with a
    precision of 53 bits.  [str] of a float is the shortest decimal text
    that reads back as the same float. *)

Module Float64.

Definition prec : Z := 53.
Definition emax : Z := 1024.

Definition of_Z (z : Z) : float := binary_normalize prec emax z 0 false.

Definition mul (x y : float) : float := SFmul prec emax x y.

Definition ltb (x y : float) : bool := SFltb x y.

Definition str_of_Z (z : Z) : string :=
  DecimalString.NilZero.string_of_int (Z.to_int z).

(** The float nearest to [n / d] for [0 < n] and [0 < d], ties to even:
    the quotient is taken with at least 56 bits and a sticky last bit,
    and rounded by [binary_normalize]. *)
Definition of_ratio (n d : Z) : float :=
  let s := Z.max 0 (57 + Z.log2 d - Z.log2 n) in
  let q := Z.shiftl n s / d in
  let r := Z.shiftl n s mod d in
  let m := 2 * q + (if r =? 0 then 0 else 1) in
  binary_normalize prec emax m (- s - 1) false.

(** [float] of the decimal numeral [digits * 10 ^ exp10], [0 < digits]. *)
Definition of_decimal (digits exp10 : Z) : float :=
  if 0 <=? exp10 then of_ratio (digits * 10 ^ exp10) 1
  else of_ratio digits (10 ^ (- exp10)).

Definition ndigits10 (z : Z) : Z := Z.of_nat (String.length (str_of_Z z)).

(** The [t] with [10 ^ t <= n / d < 10 ^ (t + 1)]. *)
Definition floor_log10 (n d : Z) : Z :=
  if d <=? n then ndigits10 (n / d) - 1 else - ndigits10 ((d - 1) / n).

Section Shortest.
(** The positive float [m * 2 ^ e] and its value [n / d]. *)
Variables (m : positive) (e : Z).

Definition exact_num : Z := if 0 <=? e then Zpos m * 2 ^ e else Zpos m.
Definition exact_den : Z := if 0 <=? e then 1 else 2 ^ (- e).

Definition reads_back (digits exp10 : Z) : bool :=
  SFeqb (of_decimal digits exp10) (S754_finite false m e).

(** The two decimals of [k] digits around the value, with the distance
    of the value to the lower one as the fraction [r / q]. *)
Definition around (k : Z) : Z * Z * Z * Z :=
  let exp10 := floor_log10 exact_num exact_den - k + 1 in
  let n := if 0 <=? exp10 then exact_num else exact_num * 10 ^ (- exp10) in
  let q := if 0 <=? exp10 then exact_den * 10 ^ exp10 else exact_den in
  (n / q, exp10, n mod q, q).

Definition nearer (lo r q : Z) : Z :=
  if 2 * r <? q then lo
  else if q <? 2 * r then lo + 1
  else if Z.even lo then lo else lo + 1.

Definition candidate (k : Z) : option (Z * Z) :=
  let '(lo, exp10, r, q) := around k in
  match reads_back lo exp10, reads_back (lo + 1) exp10 with
  | true, true => Some (nearer lo r q, exp10)
  | true, false => Some (lo, exp10)
  | false, true => Some (lo + 1, exp10)
  | false, false => None
  end.

(** The shortest decimal that reads back as the float, the nearest one
    when there are two; 17 digits always read back. *)
Fixpoint shortest (k : Z) (more : nat) : Z * Z :=
  match more with
  | O => let '(lo, exp10, r, q) := around k in (nearer lo r q, exp10)
  | S more' =>
      match candidate k with
      | Some c => c
      | None => shortest (k + 1) more'
      end
  end.
End Shortest.

(** The digits are written without zeros at their end: the upper
    decimal around a value just below a power of ten is that power,
    [10 * 10 ^ e] for [1 * 10 ^ (e + 1)]. *)
Fixpoint strip_zeros (more : nat) (digits exp10 : Z) : Z * Z :=
  match more with
  | O => (digits, exp10)
  | S more' =>
      if (0 <? digits) && (digits mod 10 =? 0)
      then strip_zeros more' (digits / 10) (exp10 + 1)
      else (digits, exp10)
  end.

Definition shortest_digits (m : positive) (e : Z) : Z * Z :=
  let '(digits, exp10) := shortest m e 1 16 in
  strip_zeros 17 digits exp10.

Fixpoint zeros (n : nat) : string :=
  match n with
  | O => ""
  | S n' => String "0" (zeros n')
  end.

Definition exponent_text (x : Z) : string :=
  let a := str_of_Z (Z.abs x) in
  (if x <? 0 then "-" else "+")
  ++ (if (String.length a <? 2)%nat then "0" ++ a else a).

(** The layout of [repr]: positional for a decimal point position in
    -3..16, exponent notation outside. *)
Definition layout (digits exp10 : Z) : string :=
  let ds := str_of_Z digits in
  let nd := Z.of_nat (String.length ds) in
  let decpt := nd + exp10 in
  if (decpt <=? -4) || (16 <? decpt) then
    match ds with
    | String d1 EmptyString => String d1 "" ++ "e" ++ exponent_text (decpt - 1)
    | String d1 rest => String d1 "." ++ rest ++ "e" ++ exponent_text (decpt - 1)
    | EmptyString => ""
    end
  else if decpt <=? 0 then "0." ++ zeros (Z.to_nat (- decpt)) ++ ds
  else if nd <=? decpt then ds ++ zeros (Z.to_nat (decpt - nd)) ++ ".0"
  else
    let '(ip, fp) := PyString.split_chars (Z.to_nat decpt) ds in
    ip ++ "." ++ fp.

(** [str(x)], which is [repr(x)] in Python 3. *)
Definition str (x : float) : string :=
  match x with
  | S754_nan => "nan"
  | S754_infinity s => if s then "-inf" else "inf"
  | S754_zero s => if s then "-0.0" else "0.0"
  | S754_finite s m e =>
      let '(digits, exp10) := shortest_digits m e in
      (if s then "-" else "") ++ layout digits exp10
  end.

End Float64.

Module PyNumber.

(** [x * 100] *)
Definition times_100 (x : pynum) : pynum :=
  match x with
  | PyInt z => PyInt (z * 100)
  | PyFloat f => PyFloat (Float64.mul f (Float64.of_Z 100))
  end.

(** [x < 1] *)
Definition lt_one (x : pynum) : bool :=
  match x with
  | PyInt z => z <? 1
  | PyFloat f => Float64.ltb f (Float64.of_Z 1)
  end.

(** [str(x)] *)
Definition str (x : pynum) : string :=
  match x with
  | PyInt z => Float64.str_of_Z z
  | PyFloat f => Float64.str f
  end.

End PyNumber.

(** ** The helpers of [music21.common] *)

(** Modelled from the spec: [common.isNum] is not part of this file.  The
    spec has the scalar branch for "a single numeric scalar" and has a
    boolean classified as an invalid specification, "not treated as 0/1
    numeric"; the doctest [getColor(True)] of the module agrees. *)
Definition isNum (usrData : pyobj) : bool :=
  match usrData with
  | PyNum _ => true
  | _ => false
  end.

(** Modelled from the spec: [common.isListLike] is not part of this file.
    The spec has the sequence branch for a "list-like" value, a sequence of
    numbers. *)
Definition isListLike (usrData : pyobj) : bool :=
  match usrData with
  | PyList _ | PyTuple _ => true
  | _ => false
  end.

(** ** The functions of [music21.ext.webcolors] *)

Module webcolors.

Definition is_digit (c : ascii) : bool :=
  let n := N_of_ascii c in (48 <=? n)%N && (n <=? 57)%N.

Definition is_hex_digit (c : ascii) : bool :=
  let n := N_of_ascii c in
  is_digit c
  || (65 <=? n)%N && (n <=? 70)%N
  || (97 <=? n)%N && (n <=? 102)%N.

Fixpoint all_hex (s : string) : bool :=
  match s with
  | EmptyString => true
  | String c s' => is_hex_digit c && all_hex s'
  end.

Fixpoint double_each (s : string) : string :=
  match s with
  | EmptyString => EmptyString
  | String c s' => String c (String c (double_each s'))
  end.

(** Modelled from the spec: [webcolors.normalize_hex] is not part of
    this file.  Spec, 4.1: "treat as a hex color: normalize shorthand
    (3-digit) to full 6-digit form, validate hex digits, lowercase";
    it fails on malformed hex.  [getColor] returns what this function
    returns and catches nothing, and the library cannot raise the
    [GraphException] that the graph module defines, so the failure is
    the library's own error. *)
Definition normalize_hex (hex_value : string) : result string :=
  match hex_value with
  | String "#" hex_digits =>
      if all_hex hex_digits then
        match String.length hex_digits with
        | 3%nat => Ok (String "#" (PyString.lower (double_each hex_digits)))
        | 6%nat => Ok (String "#" (PyString.lower hex_digits))
        | _ => Raise ValueError
        end
      else Raise ValueError
  | _ => Raise ValueError
  end.

Definition hex_of_N (n : N) : string :=
  HexadecimalString.NilZero.string_of_uint (N.to_hex_uint n).

(** The format [%02x] applied to an integer. *)
Definition format_02x (z : Z) : string :=
  if z <? 0 then "-" ++ hex_of_N (Z.to_N (- z))
  else
    let h := hex_of_N (Z.to_N z) in
    if (String.length h <? 2)%nat then "0" ++ h else h.

(** Modelled from the spec: [webcolors.rgb_to_hex] is not part of this
    file.  Spec, 4.1: "interpret the 3 values directly as 0-255 RGB
    channel values and convert to hex, zero-padding each channel to 2
    hex digits".  Three integers are formatted; anything else cannot be
    formatted as three hexadecimal channels. *)
Definition rgb_to_hex (rgb_triplet : list pynum) : result string :=
  match rgb_triplet with
  | [PyInt r; PyInt g; PyInt b] =>
      Ok ("#" ++ format_02x r ++ format_02x g ++ format_02x b)
  | _ => Raise TypeError
  end.

(** A decimal number [mantissa * 10 ^ exponent]. *)
Record decimal : Type := { mantissa : Z; exponent : Z }.

Fixpoint digits_value (acc : Z) (s : string) : option Z :=
  match s with
  | EmptyString => Some acc
  | String c s' =>
      if is_digit c
      then digits_value (10 * acc + Z.of_N (N_of_ascii c - 48)) s'
      else None
  end.

(** A non-empty run of digits. *)
Definition natural (s : string) : option Z :=
  match s with
  | EmptyString => None
  | String _ _ => digits_value 0 s
  end.

(** A run of digits with an optional sign in front. *)
Definition integer (s : string) : option Z :=
  match s with
  | String "-" s' => option_map Z.opp (natural s')
  | String "+" s' => natural s'
  | _ => natural s
  end.

(** The text before the first [c] and the text after it. *)
Fixpoint split_at (c : ascii) (s : string) : string * option string :=
  match s with
  | EmptyString => (EmptyString, None)
  | String a s' =>
      if Ascii.eqb a c then (EmptyString, Some s')
      else let '(l, r) := split_at c s' in (String a l, r)
  end.

(** An unsigned numeral: digits with an optional decimal point among
    them, and an optional exponent [e], [e+] or [e-] with digits, as
    [str] writes small and large floats. *)
Definition unsigned_decimal (s : string) : option decimal :=
  let '(significand, exponent_part) := split_at "e" s in
  let '(ip, fp) := split_at "." significand in
  let fp := match fp with Some f => f | None => EmptyString end in
  let shift :=
    match exponent_part with
    | Some t => integer t
    | None => Some 0
    end in
  match natural (ip ++ fp), shift with
  | Some m, Some x =>
      Some {| mantissa := m; exponent := x - Z.of_nat (String.length fp) |}
  | _, _ => None
  end.

Definition negate (d : decimal) : decimal :=
  {| mantissa := - mantissa d; exponent := exponent d |}.

Definition parse_decimal (s : string) : option decimal :=
  match s with
  | String "-" s' => option_map negate (unsigned_decimal s')
  | String "+" s' => unsigned_decimal s'
  | _ => unsigned_decimal s
  end.

(** The text in front of a final percent sign. *)
Fixpoint percent_body (s : string) : option string :=
  match s with
  | EmptyString => None
  | String c EmptyString => if Ascii.eqb c "%" then Some EmptyString else None
  | String c s' => option_map (String c) (percent_body s')
  end.

Definition parse_percent (s : string) : option decimal :=
  match percent_body s with
  | Some number => parse_decimal number
  | None => None
  end.

(** [n / d] rounded to the nearest integer, a half going up ([0 < d]). *)
Definition round_half_up (n d : Z) : Z := (2 * n + d) / (2 * d).

(** The 8-bit channel value of a percentage [p]: 255 * p / 100, rounded
    and kept in 0..255. *)
Definition percent_to_integer (p : decimal) : Z :=
  let v :=
    if 0 <=? exponent p
    then round_half_up (255 * mantissa p * 10 ^ exponent p) 100
    else round_half_up (255 * mantissa p) (100 * 10 ^ (- exponent p)) in
  Z.max 0 (Z.min 255 v).

(** Modelled from the spec: [webcolors.rgb_percent_to_hex] is not part
    of this file.  Spec, 4.1: the percentage strings are combined "into
    a hex color via percentage-to-hex conversion (each channel rounds its
    percentage to the nearest representable 8-bit value - exact rounding
    rule: standard percent-to-255 conversion, round-half-up)".  A
    percentage is a decimal numeral, with or without an exponent; a text
    that is no number ('inf%', 'nan%') has no channel value. *)
Definition rgb_percent_to_hex (rgb_percent_triplet : list string)
  : result string :=
  match rgb_percent_triplet with
  | [r; g; b] =>
      match parse_percent r, parse_percent g, parse_percent b with
      | Some r, Some g, Some b =>
          rgb_to_hex [PyInt (percent_to_integer r);
                      PyInt (percent_to_integer g);
                      PyInt (percent_to_integer b)]
      | _, _, _ => Raise ValueError
      end
  | _ => Raise TypeError
  end.

End webcolors.

(** ** getColor *)

Definition colorMap : list (string * string) :=
  [("b", "blue"); ("g", "green"); ("r", "red"); ("c", "cyan");
   ("m", "magenta"); ("y", "yellow"); ("k", "black"); ("w", "white")].

(** [d[key]] of a dictionary given by its items; [None] is [KeyError]. *)
Fixpoint dict_get (d : list (string * string)) (key : string) : option string :=
  match d with
  | [] => None
  | (k, v) :: rest => if String.eqb key k then Some v else dict_get rest key
  end.

(** [for sub in color: if sub < 1: percent = True; break] *)
Fixpoint percent_scan (color : list pynum) : bool :=
  match color with
  | [] => false
  | sub :: rest => if PyNumber.lt_one sub then true else percent_scan rest
  end.

Section GetColor.

(** [webcolors.css3_names_to_hex], the table of the CSS3 color names:
    a constant of the library, taken as it comes. *)
Variable css3_names_to_hex : list (string * string).

Definition color_of_string (color : string) : result string :=
  match color with
  | EmptyString => Raise IndexError (* color[0] *)
  | String c0 _ =>
      if Ascii.eqb c0 "#" then webcolors.normalize_hex color
      else
        let color := PyString.replace " " "" (PyString.lower color) in
        color <-
          (if (String.length color =? 1)%nat then
             match dict_get colorMap color with
             | Some name => Ok name
             | None =>
                 Raise (GraphException ("invalid color abbreviation: " ++ color))
             end
           else Ok color) ;;
        match dict_get css3_names_to_hex color with
        | Some hex => Ok hex
        | None => Raise (GraphException ("invalid color name: " ++ color))
        end
  end.

Definition color_of_sequence (color : list pynum) : result string :=
  let percent := percent_scan color in
  if percent then
    let color :=
      match color with
      | [c0] => [c0; c0; c0]
      | _ => color
      end in
    let colorStrList :=
      map (fun x => PyNumber.str (PyNumber.times_100 x) ++ "%") color in
    webcolors.rgb_percent_to_hex colorStrList
  else webcolors.rgb_to_hex color.

Definition invalid_specification (shown : string) : result string :=
  Raise (GraphException ("invalid color specification: " ++ shown)).

(** The branches follow the tests of the function: a string, then a
    list-like value ([isListLike]), then everything else, which is shown
    with [%s] in the message. *)
Definition getColor (color : pyobj) : result string :=
  let color :=
    if isNum color then
      match color with
      | PyNum n => PyList [n; n; n]
      | _ => color
      end
    else color in
  match color with
  | PyStr color => color_of_string color
  | PyList color | PyTuple color => color_of_sequence color
  | PyBytes b => invalid_specification (PyString.bytes_repr b)
  | PyBool b => invalid_specification (if b then "True" else "False")
  | PyNone => invalid_specification "None"
  | PyNum n => invalid_specification (PyNumber.str n) (* not reached *)
  end.

End GetColor.

(** An excerpt of the CSS3 table, for the examples. *)
Definition css3_sample : list (string * string) :=
  [("black", "#000000"); ("blue", "#0000ff"); ("cyan", "#00ffff");
   ("green", "#008000"); ("magenta", "#ff00ff"); ("red", "#ff0000");
   ("steelblue", "#4682b4"); ("white", "#ffffff"); ("yellow", "#ffff00")].

(** The floats 0.5 and 0.8. *)
Definition float_0_5 : float := S754_finite false 4503599627370496 (-53).
Definition float_0_8 : float := S754_finite false 7205759403792794 (-53).

(** An environment in which matplotlib is recorded as missing, and one
    in which every import succeeds. *)
Definition no_matplotlib : import_env :=
  {| missingImport := ["matplotlib"];
     import_matplotlib := Raise ImportError;
     import_Axes3D := Raise ImportError;
     import_collections := Raise ImportError;
     import_patches := Raise ImportError;
     import_pyplot := Raise ImportError;
     import_networkx := Raise ImportError |}.

Definition all_installed : import_env :=
  {| missingImport := [];
     import_matplotlib := Ok (Module_ "matplotlib");
     import_Axes3D := Ok (Module_ "mpl_toolkits.mplot3d.Axes3D");
     import_collections := Ok (Module_ "matplotlib.collections");
     import_patches := Ok (Module_ "matplotlib.patches");
     import_pyplot := Ok (Module_ "matplotlib.pyplot");
     import_networkx := Ok (Module_ "networkx") |}.

(** ** The vocabulary of the specification *)

(** [s] with every character [c] replaced by the text [new]. *)
Fixpoint subst_char (c : ascii) (new s : string) : string :=
  match s with
  | EmptyString => EmptyString
  | String a s' =>
      if Ascii.eqb a c then new ++ subst_char c new s'
      else String a (subst_char c new s')
  end.

Definition without_spaces (s : string) : string := subst_char " " "" s.

(** The mapping of the value resolver in the words of the spec (4.3):
    each canonical identifier with its set of synonyms. *)
Definition VALUE_SYNONYMS : list (string * list string) :=
  [("pitch", ["pitch"; "pitchspace"; "ps"]);
   ("pitchclass", ["pitchclass"; "pc"]);
   ("quarterlength", ["duration"; "quarterlength"]);
   ("offset", ["offset"; "time"]);
   ("dynamics", ["dynamic"; "dynamics"]);
   ("instrument", ["instrument"; "instruments"; "instrumentation"])].

Definition canonical_value (value : string) : string :=
  match find (fun entry => PyString.mem value (snd entry)) VALUE_SYNONYMS with
  | Some entry => fst entry
  | None => value
  end.

(** A modifier the glyph converter acts on: one of the characters '-' and
    '#', present in the label. *)
Definition convertible (modifier label : string) : Prop :=
  exists c : ascii,
    modifier = String c ""
    /\ (c = "-"%char \/ c = "#"%char)
    /\ In c (list_ascii_of_string label).

Definition hex_digits : list ascii :=
  list_ascii_of_string "0123456789abcdefABCDEF".

Definition lower_hex_digits : list ascii :=
  list_ascii_of_string "0123456789abcdef".

(** A valid hex color string: '#' and 3 or 6 hexadecimal digits. *)
Definition valid_hex (x : string) : Prop :=
  exists digits : string,
    x = String "#" digits
    /\ (String.length digits = 3%nat \/ String.length digits = 6%nat)
    /\ Forall (fun c => In c hex_digits) (list_ascii_of_string digits).

(** The canonical color string: '#' and exactly 6 lowercase hexadecimal
    digits. *)
Definition canonical_color (x : string) : Prop :=
  exists digits : string,
    x = String "#" digits
    /\ String.length digits = 6%nat
    /\ Forall (fun c => In c lower_hex_digits) (list_ascii_of_string digits).

(** One hexadecimal digit, and a channel value written with exactly two
    of them. *)
Definition hex_digit (z : Z) : ascii :=
  nth (Z.to_nat z) lower_hex_digits "0"%char.

Definition two_hex_digits (z : Z) : string :=
  String (hex_digit (z / 16)) (String (hex_digit (z mod 16)) "").

(** The percentage text of a channel value, [str(x * 100) + "%"]. *)
Definition percent_text (x : pynum) : string :=
  PyNumber.str (PyNumber.times_100 x) ++ "%".

(** The lowercase mapping of the Unicode character database on the
    characters U+0000 to U+00FF, as pairs of code points (capital,
    small); a character that is not listed is its own lowercase. *)
Definition lowercase_pairs : list (N * N) :=
  [(65, 97); (66, 98); (67, 99); (68, 100); (69, 101); (70, 102);
   (71, 103); (72, 104); (73, 105); (74, 106); (75, 107); (76, 108);
   (77, 109); (78, 110); (79, 111); (80, 112); (81, 113); (82, 114);
   (83, 115); (84, 116); (85, 117); (86, 118); (87, 119); (88, 120);
   (89, 121); (90, 122); (192, 224); (193, 225); (194, 226); (195, 227);
   (196, 228); (197, 229); (198, 230); (199, 231); (200, 232); (201, 233);
   (202, 234); (203, 235); (204, 236); (205, 237); (206, 238); (207, 239);
   (208, 240); (209, 241); (210, 242); (211, 243); (212, 244); (213, 245);
   (214, 246); (216, 248); (217, 249); (218, 250); (219, 251); (220, 252);
   (221, 253); (222, 254)]%N.

Definition lowercase_char (c : ascii) : ascii :=
  match find (fun p => N.eqb (fst p) (N_of_ascii c)) lowercase_pairs with
  | Some p => ascii_of_N (snd p)
  | None => c
  end.

Fixpoint lowercase (s : string) : string :=
  match s with
  | EmptyString => EmptyString
  | String c s' => String (lowercase_char c) (lowercase s')
  end.

(** The float is a number below 1: a zero, a negative number, or
    [m * 2 ^ e] with [m < 2 ^ (- e)]. *)
Definition float_below_one (f : float) : Prop :=
  match f with
  | S754_zero _ => True
  | S754_infinity s => s = true
  | S754_nan => False
  | S754_finite s m e => s = true \/ (e < 0 /\ Zpos m < 2 ^ (- e))
  end.

Definition below_one (x : pynum) : Prop :=
  match x with
  | PyInt z => z < 1
  | PyFloat f => float_below_one f
  end.

(** A number of Python: any integer, and a float in the canonical form
    of binary64. *)
Definition valid_number (x : pynum) : Prop :=
  match x with
  | PyInt _ => True
  | PyFloat f => valid_binary Float64.prec Float64.emax f = true
  end.

(** The channel value of the percentage [x * 100] as a number, without
    its text: for a float, the decimal that [str] writes for the
    product; no value when the product is infinite or not a number. *)
Definition percent_channel (x : pynum) : option Z :=
  match x with
  | PyInt z =>
      Some (webcolors.percent_to_integer
              {| webcolors.mantissa := z * 100; webcolors.exponent := 0 |})
  | PyFloat f =>
      match Float64.mul f (Float64.of_Z 100) with
      | S754_zero _ => Some 0
      | S754_finite s m e =>
          let '(digits, exp10) := Float64.shortest_digits m e in
          Some (webcolors.percent_to_integer
                  {| webcolors.mantissa := if s then - digits else digits;
                     webcolors.exponent := exp10 |})
      | _ => None
      end
  end.

(** The color of three channel values; no color when a channel has no
    value. *)
Definition color_of_channels (r g b : option Z) : result string :=
  match r, g, b with
  | Some r, Some g, Some b =>
      Ok ("#" ++ two_hex_digits r ++ two_hex_digits g ++ two_hex_digits b)
  | _, _, _ => Raise ValueError
  end.

(** The float 1.0, and the small float 2.5e-07. *)
Definition float_1_0 : float := S754_finite false 4503599627370496 (-52).
Definition float_2_5e_07 : float := S754_finite false 4722366482869645 (-74).

(** A value that is a string. *)
Definition is_text (o : pyobj) : bool :=
  match o with
  | PyStr _ => true
  | _ => false
  end.

(** An entry of the modifier table that the glyph converter can use. *)
Definition usable_entry (entry : string * string) : bool :=
  PyString.mem (fst entry) ["-"; "#"].

(** A glyph that holds neither '-' nor '#'. *)
Definition clean_glyph (glyph : string) : Prop :=
  ~ In "-"%char (list_ascii_of_string glyph)
  /\ ~ In "#"%char (list_ascii_of_string glyph).

(** A non-empty string that does not start with '#'. *)
Definition plain_name (s : string) : Prop :=
  exists c0 rest, s = String c0 rest /\ c0 <> "#"%char.

(** The text 'ÉCOLE' and its lowercase 'école': the letters É and é
    are the characters U+00C9 and U+00E9. *)
Definition text_ECOLE : string := String (ascii_of_N 201) "COLE".
Definition text_ecole : string := String (ascii_of_N 233) "cole".

(** The character [c] does not occur in [s]. *)
Fixpoint no_char (c : ascii) (s : string) : bool :=
  match s with
  | EmptyString => true
  | String a s' => negb (Ascii.eqb a c) && no_char c s'
  end.

(** What a numeral is read as, for the number [m * 10 ^ e]: the same
    mantissa and exponent, or the number with a fraction '.0'. *)
Definition reads_as (d : webcolors.decimal) (m e : Z) : Prop :=
  d = {| webcolors.mantissa := m; webcolors.exponent := e |}
  \/ (0 <= e
      /\ d = {| webcolors.mantissa := m * 10 ^ (e + 1);
                webcolors.exponent := -1 |}).

(** The fraction [n / d] that is 255 times the percentage [p] over 100,
    and [k] as the nearest integer to a fraction, a half going up. *)
Definition channel_fraction (p : webcolors.decimal) : Z * Z :=
  if 0 <=? webcolors.exponent p
  then (255 * webcolors.mantissa p * 10 ^ webcolors.exponent p, 100)
  else (255 * webcolors.mantissa p, 100 * 10 ^ (- webcolors.exponent p)).

Definition nearest_half_up (k n d : Z) : Prop :=
  d * (2 * k - 1) <= 2 * n < d * (2 * k + 1).

(** The invalid colors of the specification, each with the message of
    its error: an abbreviation that is no key of [colorMap], a name
    (written in full, or the name of an abbreviation) that the CSS3
    table does not hold, and a value that is no color specification. *)
Inductive invalid_color (css3 : list (string * string))
  : pyobj -> string -> Prop :=
| bad_abbreviation (s : string) :
    plain_name s ->
    String.length (without_spaces (lowercase s)) = 1%nat ->
    (forall name, ~ In (without_spaces (lowercase s), name) colorMap) ->
    invalid_color css3 (PyStr s)
      ("invalid color abbreviation: " ++ without_spaces (lowercase s))
| bad_name (s name : string) :
    plain_name s ->
    (String.length (without_spaces (lowercase s)) <> 1%nat
     /\ name = without_spaces (lowercase s)
     \/ In (without_spaces (lowercase s), name) colorMap) ->
    (forall hex, ~ In (name, hex) css3) ->
    invalid_color css3 (PyStr s) ("invalid color name: " ++ name)
| bad_boolean (b : bool) :
    invalid_color css3 (PyBool b)
      ("invalid color specification: " ++ (if b then "True" else "False"))
| bad_none :
    invalid_color css3 PyNone "invalid color specification: None"
| bad_bytes (b : string) :
    invalid_color css3 (PyBytes b)
      ("invalid color specification: " ++ PyString.bytes_repr b).

(** * Properties *)

(** ** Evaluation on the documented examples *)

Example userFormatsToFormat_horizontal :
  userFormatsToFormat (PyStr "horizontal") = Ok "horizontalbar".
Proof. reflexivity. Qed.

Example userFormatsToFormat_weighted_scatter :
  userFormatsToFormat (PyStr "Weighted Scatter") = Ok "scatterweighted".
Proof. reflexivity. Qed.

Example userFormatsToFormat_3D :
  userFormatsToFormat (PyStr "3D") = Ok "3dbars".
Proof. reflexivity. Qed.

Example userFormatsToFormat_unknown :
  userFormatsToFormat (PyStr "4D super chart") = Ok "4dsuperchart".
Proof. reflexivity. Qed.

Example userValuesToValues_doctest :
  userValuesToValues [PyStr "pitchSpace"; PyStr "Duration"]
  = Ok ["pitch"; "quarterlength"].
Proof. reflexivity. Qed.

Example accidentalLabelToUnicode_B_flat :
  accidentalLabelToUnicode sample_modifiers (PyStr "B-4")
  = PyStr ("B" ++ flat_glyph ++ "4").
Proof. reflexivity. Qed.

Example accidentalLabelToUnicode_B_double_flat :
  accidentalLabelToUnicode sample_modifiers (PyStr "B--4")
  = PyStr ("B" ++ flat_glyph ++ flat_glyph ++ "4").
Proof. reflexivity. Qed.

Example float_0_5_literal : Float64.of_decimal 5 (-1) = float_0_5.
Proof. vm_compute. reflexivity. Qed.

Example float_0_8_literal : Float64.of_decimal 8 (-1) = float_0_8.
Proof. vm_compute. reflexivity. Qed.

Example str_float_examples :
  Float64.str float_0_8 = "0.8"
  /\ PyNumber.str (PyNumber.times_100 (PyFloat float_0_8)) = "80.0"
  /\ PyNumber.str (PyNumber.times_100 (PyFloat float_0_5)) = "50.0"
  /\ Float64.str (Float64.of_decimal 1 (-5)) = "1e-05"
  /\ Float64.str (Float64.of_decimal 1 16) = "1e+16"
  /\ Float64.str (Float64.of_decimal 123456789123 (-3)) = "123456789.123".
Proof. vm_compute. repeat split. Qed.

(** [str] writes no fraction in front of an exponent when there is one
    digit, and the shortest digits that read back as the float. *)
Example str_float_small :
  Float64.str (Float64.of_decimal 1 (-7)) = "1e-07"
  /\ Float64.str (Float64.of_decimal 1 (-6)) = "1e-06"
  /\ Float64.str (Float64.of_decimal 1 23) = "1e+23"
  /\ Float64.str float_2_5e_07 = "2.5e-07"
  /\ PyNumber.str (PyNumber.times_100 (PyFloat float_2_5e_07))
     = "2.4999999999999998e-05"
  /\ Float64.str (Float64.of_decimal 1 (-4)) = "0.0001"
  /\ Float64.str (Float64.of_decimal 12 15) = "1.2e+16"
  /\ Float64.str float_1_0 = "1.0".
Proof. vm_compute. repeat split. Qed.

(** Lowercasing reaches the letters beyond ASCII: 'ÉCOLE' gives
    'école'; the signs U+00D7 and U+00F7 and the letter U+00DF stay. *)
Example lower_ECOLE : PyString.lower text_ECOLE = text_ecole.
Proof. reflexivity. Qed.

Example lower_unchanged :
  PyString.lower (String (ascii_of_N 215) (String (ascii_of_N 247)
                   (String (ascii_of_N 223) "a1 -")))
  = String (ascii_of_N 215) (String (ascii_of_N 247)
      (String (ascii_of_N 223) "a1 -")).
Proof. reflexivity. Qed.

Example userFormatsToFormat_ECOLE :
  userFormatsToFormat (PyStr text_ECOLE) = Ok text_ecole.
Proof. reflexivity. Qed.

(** A value of type [bytes] has [lower] and no [replace] with text. *)
Example userValuesToValues_bytes :
  userValuesToValues [PyStr "pitch"; PyBytes "ps"] = Raise TypeError
  /\ userValuesToValues [PyStr "pitch"; PyNum (PyInt 1)] = Raise AttributeError
  /\ userFormatsToFormat (PyBytes "bar") = Raise TypeError.
Proof. repeat split. Qed.

Example getColor_red : getColor css3_sample (PyStr "red") = Ok "#ff0000".
Proof. reflexivity. Qed.

Example getColor_r : getColor css3_sample (PyStr "r") = Ok "#ff0000".
Proof. reflexivity. Qed.

Example getColor_steel_blue :
  getColor css3_sample (PyStr "Steel Blue") = Ok "#4682b4".
Proof. reflexivity. Qed.

Example getColor_f50 : getColor css3_sample (PyStr "#f50") = Ok "#ff5500".
Proof. reflexivity. Qed.

Example getColor_white_triple :
  getColor css3_sample (PyList [PyInt 255; PyInt 255; PyInt 255]) = Ok "#ffffff".
Proof. reflexivity. Qed.

Example getColor_255 :
  getColor css3_sample (PyNum (PyInt 255)) = Ok "#ffffff".
Proof. reflexivity. Qed.

Example getColor_l :
  getColor css3_sample (PyStr "l")
  = Raise (GraphException "invalid color abbreviation: l").
Proof. reflexivity. Qed.

Example getColor_chalky :
  getColor css3_sample (PyStr "chalkywhitebutsortofgreenish")
  = Raise (GraphException "invalid color name: chalkywhitebutsortofgreenish").
Proof. reflexivity. Qed.

Example getColor_half :
  getColor css3_sample (PyNum (PyFloat float_0_5)) = Ok "#808080".
Proof. vm_compute. reflexivity. Qed.

Example getColor_ones :
  getColor css3_sample (PyList [PyInt 1; PyInt 1; PyInt 1]) = Ok "#010101".
Proof. reflexivity. Qed.

(** With the sharp listed before the flat, a label that has both keeps
    its flat. *)
Example accidentalLabelToUnicode_sharp_and_flat :
  accidentalLabelToUnicode sample_modifiers (PyStr "C#-")
  = PyStr ("C" ++ sharp_glyph ++ "-").
Proof. reflexivity. Qed.

(** ** Strings *)

Lemma lower_char_idempotent (c : ascii) :
  PyString.lower_char (PyString.lower_char c) = PyString.lower_char c.
Proof.
  destruct c as [[] [] [] [] [] [] [] []]; reflexivity.
Qed.

Lemma lower_char_space (c : ascii) :
  Ascii.eqb (PyString.lower_char c) " " = Ascii.eqb c " ".
Proof.
  destruct c as [[] [] [] [] [] [] [] []]; reflexivity.
Qed.

(** The lowercase mapping of the program is the one of the character
    table, on every character. *)
Lemma lower_char_lowercase (c : ascii) :
  PyString.lower_char c = lowercase_char c.
Proof.
  destruct c as [[] [] [] [] [] [] [] []]; reflexivity.
Qed.

Lemma lower_lowercase (s : string) : PyString.lower s = lowercase s.
Proof.
  induction s as [|c s IH]; [reflexivity|].
  cbn [PyString.lower lowercase]. now rewrite lower_char_lowercase, IH.
Qed.

Lemma prefix_empty (s : string) : prefix "" s = true.
Proof. destruct s; reflexivity. Qed.

(** Replacing a one-character text is a substitution character by
    character. *)
Lemma replace_single (c : ascii) (new s : string) :
  PyString.replace (String c "") new s = subst_char c new s.
Proof.
  unfold PyString.replace.
  induction s as [|a s IH]; [reflexivity|].
  cbn [PyString.replace_from subst_char prefix String.length Nat.pred].
  rewrite prefix_empty, IH.
  destruct (ascii_dec c a) as [<- | Hne].
  - now rewrite Ascii.eqb_refl.
  - destruct (Ascii.eqb a c) eqn:E; [|reflexivity].
    apply Ascii.eqb_eq in E. congruence.
Qed.

Lemma normalize_name_eq (s : string) :
  normalize_name s = without_spaces (PyString.lower s).
Proof. apply replace_single. Qed.

Lemma normalize_name_lowercase (s : string) :
  normalize_name s = without_spaces (lowercase s).
Proof. now rewrite normalize_name_eq, lower_lowercase. Qed.

Lemma without_spaces_lower (s : string) :
  PyString.lower (without_spaces (PyString.lower s))
  = without_spaces (PyString.lower s).
Proof.
  unfold without_spaces.
  induction s as [|c s IH]; [reflexivity|].
  cbn [PyString.lower subst_char].
  destruct (Ascii.eqb (PyString.lower_char c) " "); cbn [append].
  - exact IH.
  - cbn [PyString.lower]. now rewrite lower_char_idempotent, IH.
Qed.

Lemma without_spaces_idempotent (s : string) :
  without_spaces (without_spaces s) = without_spaces s.
Proof.
  unfold without_spaces.
  induction s as [|c s IH]; [reflexivity|].
  cbn [subst_char].
  destruct (Ascii.eqb c " ") eqn:E; cbn [append]; [exact IH|].
  cbn [subst_char]. now rewrite E, IH.
Qed.

Lemma normalize_name_idempotent (s : string) :
  normalize_name (normalize_name s) = normalize_name s.
Proof.
  rewrite !normalize_name_eq, without_spaces_lower.
  apply without_spaces_idempotent.
Qed.

Lemma mem_In (x : string) (t : list string) :
  PyString.mem x t = true <-> In x t.
Proof.
  unfold PyString.mem. rewrite existsb_exists. split.
  - intros (y & Hy & E). apply String.eqb_eq in E. now subst.
  - intros H. exists x. split; [exact H | apply String.eqb_refl].
Qed.

Lemma mem_not_In (x : string) (t : list string) :
  PyString.mem x t = false <-> ~ In x t.
Proof.
  rewrite <- mem_In. destruct (PyString.mem x t); split; congruence.
Qed.

Lemma contains_single (c : ascii) (s : string) :
  PyString.contains (String c "") s = true <-> In c (list_ascii_of_string s).
Proof.
  induction s as [|a s IH]; cbn [PyString.contains prefix list_ascii_of_string In].
  - split; [discriminate | tauto].
  - rewrite prefix_empty, orb_true_iff, IH.
    destruct (ascii_dec c a) as [<- | Hne]; [tauto|].
    split; [intros [H|H]; [discriminate | tauto]
           | intros [H|H]; [congruence | tauto]].
Qed.

(** ** The format resolver *)

(** The scan returns the head of the first group holding the value. *)
Lemma scan_synonyms_first (value : string) (groups : list (list string)) :
  Forall (fun g => g <> []) groups ->
  (exists before canonical rest after,
      groups = (before ++ (canonical :: rest) :: after)%list
      /\ In value (canonical :: rest)
      /\ (forall g, In g before -> ~ In value g)
      /\ scan_synonyms value groups = Ok canonical)
  \/ ((forall g, In g groups -> ~ In value g)
      /\ scan_synonyms value groups = Ok value).
Proof.
  induction 1 as [|opt groups Hopt _ IH].
  - right. split; [intros g []|reflexivity].
  - cbn [scan_synonyms].
    destruct (PyString.mem value opt) eqn:M.
    + apply mem_In in M. destruct opt as [|canonical rest]; [destruct M|].
      left. exists [], canonical, rest, groups.
      repeat split; auto; intros g [].
    + apply mem_not_In in M.
      destruct IH as [(before & c & rest & after & -> & Hin & Hb & Hs)
                     | (Hn & Hs)].
      * left. exists (opt :: before), c, rest, after. repeat split; auto.
        intros g [<- | Hg]; auto.
      * right. split; [|exact Hs].
        intros g [<- | Hg]; auto.
Qed.

Lemma FORMAT_SYNONYMS_nonempty : Forall (fun g => g <> []) FORMAT_SYNONYMS.
Proof. repeat constructor; discriminate. Qed.

(** C6.  For every input string, [userFormatsToFormat] returns (it never
    raises): with the input lowercased and its spaces removed, the result
    is the first member of the first group of [FORMAT_SYNONYMS] that holds
    this normalized string, and the normalized string itself when no
    group holds it; 'horizontal' gives 'horizontalbar' and
    '4D super chart' gives '4dsuperchart'.  Lowercasing is the mapping
    [lowercase] of the character table. *)
Theorem userFormatsToFormat_first_match (s : string) :
  let value := without_spaces (lowercase s) in
  ((exists before canonical rest after,
       FORMAT_SYNONYMS = (before ++ (canonical :: rest) :: after)%list
       /\ In value (canonical :: rest)
       /\ (forall g, In g before -> ~ In value g)
       /\ userFormatsToFormat (PyStr s) = Ok canonical)
   \/ ((forall g, In g FORMAT_SYNONYMS -> ~ In value g)
       /\ userFormatsToFormat (PyStr s) = Ok value))
  /\ userFormatsToFormat (PyStr "horizontal") = Ok "horizontalbar"
  /\ userFormatsToFormat (PyStr "4D super chart") = Ok "4dsuperchart"
  /\ userFormatsToFormat (PyStr "Weighted Scatter") = Ok "scatterweighted"
  /\ userFormatsToFormat (PyStr "PIANO ROLL") = Ok "horizontalbar"
  /\ userFormatsToFormat (PyStr " W i n d o w e d ") = Ok "colorgrid"
  /\ userFormatsToFormat (PyStr "Bar Chart") = Ok "barchart"
  /\ userFormatsToFormat (PyStr text_ECOLE) = Ok text_ecole.
Proof.
  cbn zeta. split; [|repeat split].
  unfold userFormatsToFormat. rewrite normalize_name_lowercase.
  apply scan_synonyms_first, FORMAT_SYNONYMS_nonempty.
Qed.

Lemma scan_synonyms_canonical (value : string) :
  In value FORMATS -> scan_synonyms value FORMAT_SYNONYMS = Ok value.
Proof.
  intros H. repeat (destruct H as [<- | H]; [reflexivity|]). destruct H.
Qed.

Lemma normalize_name_canonical (value : string) :
  In value FORMATS -> normalize_name value = value.
Proof.
  intros H. repeat (destruct H as [<- | H]; [reflexivity|]). destruct H.
Qed.

(** The scan always returns: a canonical format, or its argument. *)
Lemma scan_synonyms_result (value : string) :
  exists r,
    scan_synonyms value FORMAT_SYNONYMS = Ok r
    /\ (In r FORMATS \/ r = value).
Proof.
  destruct (scan_synonyms_first value FORMAT_SYNONYMS FORMAT_SYNONYMS_nonempty)
    as [(before & c & rest & after & E & _ & _ & Hs) | (_ & Hs)].
  - exists c. split; [exact Hs|]. left.
    assert (Hc : In (c :: rest) FORMAT_SYNONYMS)
      by (rewrite E; apply in_or_app; right; left; reflexivity).
    cbn in Hc.
    repeat (destruct Hc as [Hc | Hc];
            [injection Hc as <- _; cbn; tauto|]).
    destruct Hc.
  - exists value. auto.
Qed.

(** C10.  [userFormatsToFormat] is idempotent: for every string [s] the
    call returns some [r], and the call on [r] returns [r] again. *)
Theorem userFormatsToFormat_idempotent (s : string) :
  exists r, userFormatsToFormat (PyStr s) = Ok r
            /\ userFormatsToFormat (PyStr r) = Ok r.
Proof.
  unfold userFormatsToFormat.
  destruct (scan_synonyms_result (normalize_name s)) as (r & Hr & [Hc | ->]).
  - exists r. split; [exact Hr|].
    rewrite (normalize_name_canonical _ Hc). now apply scan_synonyms_canonical.
  - exists (normalize_name s). split; [exact Hr|].
    now rewrite normalize_name_idempotent.
Qed.

(** ** The value resolver *)

Lemma value_synonym_canonical (value : string) :
  value_synonym value = canonical_value value.
Proof.
  unfold value_synonym, canonical_value, VALUE_SYNONYMS.
  cbn [find snd fst].
  repeat match goal with
         | |- context [PyString.mem value ?t] => destruct (PyString.mem value t)
         end; reflexivity.
Qed.

(** The synonym sets are pairwise disjoint, so the table is a function. *)
Lemma canonical_value_member (value c : string) (syn : list string) :
  In (c, syn) VALUE_SYNONYMS -> In value syn -> canonical_value value = c.
Proof.
  intros Hin Hv. cbn in Hin.
  repeat (destruct Hin as [Hin | Hin];
          [injection Hin as <- <-; cbn in Hv;
           repeat (destruct Hv as [<- | Hv]; [reflexivity|]); destruct Hv|]).
  destruct Hin.
Qed.

Lemma canonical_value_other (value : string) :
  (forall c syn, In (c, syn) VALUE_SYNONYMS -> ~ In value syn) ->
  canonical_value value = value.
Proof.
  intros H. unfold canonical_value.
  destruct (find _ VALUE_SYNONYMS) as [[c syn]|] eqn:F; [|reflexivity].
  apply find_some in F. destruct F as [Hin Hm]. cbn [snd] in Hm.
  apply mem_In in Hm. now apply H in Hin.
Qed.

(** The loop appends one resolved value per element. *)
Lemma values_loop_map (valueList : list string) (post : list string) :
  values_loop (map PyStr valueList) post
  = Ok (post ++ map (fun v => value_synonym (normalize_name v)) valueList)%list.
Proof.
  revert post.
  induction valueList as [|v l IH]; intros post; cbn [map values_loop].
  - now rewrite app_nil_r.
  - rewrite IH, <- app_assoc. reflexivity.
Qed.

(** C7.  For every list of strings, [userValuesToValues] returns (it
    never raises) a list of the same length and order whose element at
    each index depends on the input element at that index alone: the
    element lowercased and without spaces is sent to the canonical
    identifier of the synonym set that holds it ([VALUE_SYNONYMS]), and
    passes through normalized when no set holds it.  Lowercasing is the
    mapping [lowercase] of the character table. *)
Theorem userValuesToValues_elementwise (valueList : list string) :
  let resolve := fun v => canonical_value (without_spaces (lowercase v)) in
  (exists post,
      userValuesToValues (map PyStr valueList) = Ok post
      /\ post = map resolve valueList
      /\ List.length post = List.length valueList
      /\ (forall i v, nth_error valueList i = Some v ->
                      nth_error post i = Some (resolve v))
      /\ (forall v c syn,
             In (c, syn) VALUE_SYNONYMS ->
             In (without_spaces (lowercase v)) syn -> resolve v = c)
      /\ (forall v,
             (forall c syn, In (c, syn) VALUE_SYNONYMS ->
                            ~ In (without_spaces (lowercase v)) syn) ->
             resolve v = without_spaces (lowercase v)))
  /\ userValuesToValues
       [PyStr "pitchSpace"; PyStr "PC"; PyStr "Duration"; PyStr "Time";
        PyStr "DYNAMIC"; PyStr "Instru mentation"; PyStr "Note Head";
        PyStr text_ECOLE]
     = Ok ["pitch"; "pitchclass"; "quarterlength"; "offset";
           "dynamics"; "instrument"; "notehead"; text_ecole].
Proof.
  intros resolve. split; [|reflexivity]. exists (map resolve valueList).
  split; [|split; [reflexivity|split; [apply length_map|split; [|split]]]].
  - unfold userValuesToValues. rewrite values_loop_map. cbn [app]. f_equal.
    apply map_ext. intros v. unfold resolve.
    now rewrite value_synonym_canonical, normalize_name_lowercase.
  - intros i v H. now apply map_nth_error.
  - intros v c syn. apply canonical_value_member.
  - intros v. apply canonical_value_other.
Qed.

(** ** The accidental glyph converter *)

Lemma guard_convertible (modifier label : string) :
  negb (modifier =? "")%string && PyString.contains modifier label
  && PyString.mem modifier ["-"; "#"] = true
  <-> convertible modifier label.
Proof.
  unfold convertible. rewrite !andb_true_iff, mem_In. split.
  - intros [[_ Hc] [<- | [<- | []]]].
    + exists "-"%char. rewrite <- contains_single. tauto.
    + exists "#"%char. rewrite <- contains_single. tauto.
  - intros (c & -> & Hc & Hin). apply contains_single in Hin.
    split; [split; [reflexivity | exact Hin] |].
    destruct Hc as [-> | ->]; cbn; tauto.
Qed.

(** The scan stops at the first convertible modifier of the table and
    substitutes that one alone. *)
Lemma scan_modifiers_first (items : list (string * string)) (label : string) :
  (exists before c glyph after,
      items = (before ++ (String c "", glyph) :: after)%list
      /\ convertible (String c "") label
      /\ (forall m g, In (m, g) before -> ~ convertible m label)
      /\ scan_modifiers items label = subst_char c glyph label)
  \/ ((forall m g, In (m, g) items -> ~ convertible m label)
      /\ scan_modifiers items label = label).
Proof.
  induction items as [|[modifier unicodeAcc] items IH].
  - right. split; [intros m g []|reflexivity].
  - cbn [scan_modifiers].
    destruct (negb (modifier =? "")%string && PyString.contains modifier label
              && PyString.mem modifier ["-"; "#"]) eqn:G.
    + apply guard_convertible in G. left.
      destruct G as (c & -> & Hc & Hin).
      exists [], c, unicodeAcc, items.
      repeat split; [now exists c | intros m g [] | apply replace_single].
    + assert (Hn : ~ convertible modifier label)
        by (rewrite <- guard_convertible; congruence).
      destruct IH as [(before & c & glyph & after & -> & Hc & Hb & Hs)
                     | (Hb & Hs)].
      * left. exists ((modifier, unicodeAcc) :: before), c, glyph, after.
        repeat split; auto.
        intros m g [E | Hin]; [injection E as <- <-; exact Hn | eauto].
      * right. split; [|exact Hs].
        intros m g [E | Hin]; [injection E as <- <-; exact Hn | eauto].
Qed.

(** C4.  Whatever the modifier table, [accidentalLabelToUnicode] returns
    a value that is not a string unchanged.  On a string it acts for the
    modifiers '-' and '#' alone: the first entry of the table whose
    modifier is one of the two and occurs in the label has every
    occurrence of that modifier replaced by its glyph, and nothing else
    is done; without such an entry the label is returned as it is.  So a
    label holding both '-' and '#' comes back with one of the two
    converted, the other one left in place. *)
Theorem accidentalLabelToUnicode_first_match
  (unicodeFromModifier : list (string * string)) :
  (forall other : pyobj,
      match other with
      | PyStr _ => True
      | _ => accidentalLabelToUnicode unicodeFromModifier other = other
      end)
  /\ (forall label : string,
         (exists before c glyph after,
             unicodeFromModifier = (before ++ (String c "", glyph) :: after)%list
             /\ convertible (String c "") label
             /\ (forall m g, In (m, g) before -> ~ convertible m label)
             /\ accidentalLabelToUnicode unicodeFromModifier (PyStr label)
                = PyStr (subst_char c glyph label))
         \/ ((forall m g, In (m, g) unicodeFromModifier -> ~ convertible m label)
             /\ accidentalLabelToUnicode unicodeFromModifier (PyStr label)
                = PyStr label))
  /\ (forall (label flat sharp : string),
         In "-"%char (list_ascii_of_string label) ->
         In "#"%char (list_ascii_of_string label) ->
         In ("-", flat) unicodeFromModifier ->
         In ("#", sharp) unicodeFromModifier ->
         exists glyph,
           (In ("-", glyph) unicodeFromModifier
            /\ accidentalLabelToUnicode unicodeFromModifier (PyStr label)
               = PyStr (subst_char "-" glyph label))
           \/ (In ("#", glyph) unicodeFromModifier
               /\ accidentalLabelToUnicode unicodeFromModifier (PyStr label)
                  = PyStr (subst_char "#" glyph label))).
Proof.
  split; [|split].
  - intros []; cbn; auto.
  - intros label. cbn [accidentalLabelToUnicode].
    destruct (scan_modifiers_first unicodeFromModifier label)
      as [(before & c & glyph & after & E & Hc & Hb & Hs) | (Hb & Hs)].
    + left. exists before, c, glyph, after. rewrite Hs. auto.
    + right. rewrite Hs. auto.
  - intros label flat sharp Hflat Hsharp Iflat Isharp.
    cbn [accidentalLabelToUnicode].
    destruct (scan_modifiers_first unicodeFromModifier label)
      as [(before & c & glyph & after & E & Hc & Hb & Hs) | (Hb & Hs)].
    + exists glyph. rewrite Hs.
      assert (Hin : In (String c "", glyph) unicodeFromModifier)
        by (rewrite E; apply in_or_app; right; left; reflexivity).
      destruct Hc as (c' & Ec & [-> | ->] & _); injection Ec as ->; auto.
    + exfalso. apply (Hb _ _ Iflat). exists "-"%char. auto.
Qed.

(** ** Hexadecimal color strings *)

Lemma is_hex_digit_In (c : ascii) :
  In c hex_digits -> webcolors.is_hex_digit c = true.
Proof.
  intros H. cbn in H.
  repeat (destruct H as [<- | H]; [reflexivity|]). destruct H.
Qed.

Lemma lower_hex_digit (c : ascii) :
  webcolors.is_hex_digit c = true -> In (PyString.lower_char c) lower_hex_digits.
Proof.
  destruct c as [[] [] [] [] [] [] [] []]; cbn; intros H;
    try discriminate H; tauto.
Qed.

Lemma lower_hex_is_hex (c : ascii) : In c lower_hex_digits -> In c hex_digits.
Proof. cbn. tauto. Qed.

Lemma lower_hex_fixed (c : ascii) :
  In c lower_hex_digits -> PyString.lower_char c = c.
Proof.
  intros H. cbn in H.
  repeat (destruct H as [<- | H]; [reflexivity|]). destruct H.
Qed.

Lemma all_hex_Forall (s : string) :
  Forall (fun c => In c hex_digits) (list_ascii_of_string s) ->
  webcolors.all_hex s = true.
Proof.
  induction s as [|c s IH]; cbn [list_ascii_of_string webcolors.all_hex];
    [reflexivity|].
  intros H. inversion_clear H as [|? ? Hc Hs].
  now rewrite (is_hex_digit_In _ Hc), IH.
Qed.

Lemma lower_all_hex (s : string) :
  webcolors.all_hex s = true ->
  Forall (fun c => In c lower_hex_digits)
         (list_ascii_of_string (PyString.lower s)).
Proof.
  induction s as [|c s IH];
    cbn [list_ascii_of_string webcolors.all_hex PyString.lower];
    [constructor|].
  intros H. apply andb_true_iff in H. destruct H as [Hc Hs].
  constructor; [now apply lower_hex_digit | now apply IH].
Qed.

Lemma lower_length (s : string) :
  String.length (PyString.lower s) = String.length s.
Proof. induction s; cbn; congruence. Qed.

Lemma lower_fixed (s : string) :
  Forall (fun c => In c lower_hex_digits) (list_ascii_of_string s) ->
  PyString.lower s = s.
Proof.
  induction s as [|c s IH]; cbn [list_ascii_of_string PyString.lower];
    [reflexivity|].
  intros H. inversion_clear H as [|? ? Hc Hs].
  now rewrite (lower_hex_fixed _ Hc), IH.
Qed.

Lemma double_each_length (s : string) :
  String.length (webcolors.double_each s) = (2 * String.length s)%nat.
Proof. induction s; cbn [webcolors.double_each String.length]; lia. Qed.

Lemma double_each_all_hex (s : string) :
  webcolors.all_hex (webcolors.double_each s) = webcolors.all_hex s.
Proof.
  induction s as [|c s IH]; cbn [webcolors.double_each webcolors.all_hex];
    [reflexivity|].
  rewrite IH. now destruct (webcolors.is_hex_digit c).
Qed.

(** A canonical color is a fixed point of the hex normalization. *)
Lemma normalize_hex_canonical (y : string) :
  canonical_color y -> webcolors.normalize_hex y = Ok y.
Proof.
  intros (digits & -> & Hlen & Hd). cbn [webcolors.normalize_hex].
  rewrite all_hex_Forall, Hlen
    by (eapply Forall_impl; [apply lower_hex_is_hex | exact Hd]).
  now rewrite (lower_fixed _ Hd).
Qed.

(** A valid hex string is normalized, to a canonical color. *)
Lemma normalize_hex_valid (x : string) :
  valid_hex x -> exists y, webcolors.normalize_hex x = Ok y /\ canonical_color y.
Proof.
  intros (digits & -> & Hlen & Hd). cbn [webcolors.normalize_hex].
  pose proof (all_hex_Forall _ Hd) as Hh. rewrite Hh.
  destruct Hlen as [Hlen | Hlen]; rewrite Hlen;
    eexists; (split; [reflexivity|]); eexists; (split; [reflexivity|]).
  - rewrite lower_length, double_each_length. split; [lia|].
    apply lower_all_hex. now rewrite double_each_all_hex.
  - rewrite lower_length. split; [assumption|]. now apply lower_all_hex.
Qed.

Lemma format_02x_byte (z : Z) :
  0 <= z <= 255 -> webcolors.format_02x z = two_hex_digits z.
Proof.
  intros Hz.
  assert (H : forallb (fun n => String.eqb (webcolors.format_02x (Z.of_nat n))
                                           (two_hex_digits (Z.of_nat n)))
                      (seq 0 256) = true) by (vm_compute; reflexivity).
  rewrite forallb_forall in H.
  specialize (H (Z.to_nat z)). rewrite Z2Nat.id in H by lia.
  apply String.eqb_eq, H, in_seq. lia.
Qed.

(** ** Comparison with 1 *)

Lemma digits2_pos_bounds (m : positive) :
  2 ^ (Zpos (digits2_pos m) - 1) <= Zpos m < 2 ^ Zpos (digits2_pos m).
Proof.
  induction m as [m IH|m IH|]; cbn [digits2_pos].
  - rewrite Pos2Z.inj_succ.
    replace (Z.succ (Zpos (digits2_pos m)) - 1)
      with (Z.succ (Zpos (digits2_pos m) - 1)) by lia.
    rewrite !Z.pow_succ_r by lia. lia.
  - rewrite Pos2Z.inj_succ.
    replace (Z.succ (Zpos (digits2_pos m)) - 1)
      with (Z.succ (Zpos (digits2_pos m) - 1)) by lia.
    rewrite !Z.pow_succ_r by lia. lia.
  - cbn. lia.
Qed.

Lemma match_Lt_true (c : comparison) :
  match c with Lt => true | _ => false end = true <-> c = Lt.
Proof. destruct c; intuition congruence. Qed.

Lemma compare_cont_lt (m n : positive) :
  PosDef.Pos.compare_cont Eq m n = Lt <-> Z.pos m < Z.pos n.
Proof. reflexivity. Qed.

Lemma one_is : Float64.of_Z 1 = S754_finite false 4503599627370496 (-52).
Proof. reflexivity. Qed.

Lemma float_lt_one (f : float) :
  valid_binary Float64.prec Float64.emax f = true ->
  Float64.ltb f (Float64.of_Z 1) = true <-> float_below_one f.
Proof.
  intros Hv. rewrite one_is. unfold Float64.ltb, SFltb.
  destruct f as [s|s| |s m e]; cbn [SFcompare float_below_one].
  - tauto.
  - destruct s; cbn; intuition congruence.
  - intuition congruence.
  - destruct s.
    + cbn. tauto.
    + cbn [valid_binary] in Hv. unfold bounded, canonical_mantissa, fexp, emin in Hv.
      apply andb_true_iff in Hv. destruct Hv as [Hc _].
      apply Z.eqb_eq in Hc.
      pose proof (digits2_pos_bounds m) as Hb.
      unfold Float64.prec, Float64.emax in Hc.
      destruct (Z.compare_spec e (-52)) as [->|Hlt|Hgt].
      * rewrite match_Lt_true.
        assert (E52 : 2 ^ (- -52) = 4503599627370496) by (vm_compute; reflexivity).
        rewrite E52, compare_cont_lt.
        split; [intros H; right; split; [reflexivity | exact H]|].
        intros [H|[_ H]]; [inversion H | exact H].
      * split; [intros _; right | reflexivity]. split; [lia|].
        assert (Hd : Zpos (digits2_pos m) <= 53) by lia.
        eapply Z.lt_le_trans; [apply Hb|].
        apply Z.pow_le_mono_r; lia.
      * split; [discriminate|]. intros [H|[He H]]; [discriminate|].
        exfalso.
        assert (Hd : Zpos (digits2_pos m) = 53) by lia.
        rewrite Hd in Hb. destruct Hb as [Hb _].
        assert (E52 : 2 ^ (53 - 1) = 4503599627370496) by reflexivity.
        assert (E51 : 2 ^ 51 = 2251799813685248) by reflexivity.
        assert (H51 : 2 ^ (- e) <= 2 ^ 51) by (apply Z.pow_le_mono_r; lia).
        rewrite E52 in Hb. rewrite E51 in H51. lia.
Qed.

Lemma lt_one_below_one (x : pynum) :
  valid_number x -> PyNumber.lt_one x = true <-> below_one x.
Proof.
  destruct x as [z|f]; cbn [valid_number PyNumber.lt_one below_one].
  - intros _. apply Z.ltb_lt.
  - apply float_lt_one.
Qed.

Lemma percent_scan_below_one (color : list pynum) :
  Forall valid_number color ->
  percent_scan color = true <-> Exists below_one color.
Proof.
  induction 1 as [|x rest Hx Hrest IH]; cbn [percent_scan].
  - split; [discriminate | intros H; inversion H].
  - pose proof (lt_one_below_one x Hx) as Hb.
    destruct (PyNumber.lt_one x).
    + split; [intros _; constructor; now apply Hb | reflexivity].
    + rewrite IH. split; [now constructor|].
      intros H. inversion_clear H; [|assumption].
      apply Hb in H0. discriminate.
Qed.

(** ** Decimal numerals *)

Lemma string_app_assoc (s1 s2 s3 : string) :
  (s1 ++ s2) ++ s3 = s1 ++ (s2 ++ s3).
Proof. induction s1 as [|c s1 IH]; cbn [append]; congruence. Qed.

Lemma string_app_length (s1 s2 : string) :
  String.length (s1 ++ s2) = (String.length s1 + String.length s2)%nat.
Proof. induction s1 as [|c s1 IH]; cbn; congruence. Qed.

Lemma digits_value_app (a b : string) (acc : Z) :
  webcolors.digits_value acc (a ++ b)
  = match webcolors.digits_value acc a with
    | Some v => webcolors.digits_value v b
    | None => None
    end.
Proof.
  revert acc. induction a as [|c a IH]; intros acc; cbn [append webcolors.digits_value].
  - reflexivity.
  - destruct (webcolors.is_digit c); [apply IH | reflexivity].
Qed.

(** Digits read after an accumulator: the accumulator is shifted. *)
Lemma digits_value_shift (s : string) (a b : Z) :
  webcolors.digits_value (a + b) s
  = option_map (fun v => v + b * 10 ^ Z.of_nat (String.length s))
               (webcolors.digits_value a s).
Proof.
  revert a b. induction s as [|c s IH]; intros a b;
    cbn [webcolors.digits_value String.length option_map].
  - f_equal. cbn. lia.
  - destruct (webcolors.is_digit c); [|reflexivity].
    replace (10 * (a + b) + Z.of_N (N_of_ascii c - 48))
      with ((10 * a + Z.of_N (N_of_ascii c - 48)) + 10 * b) by lia.
    rewrite IH. destruct (webcolors.digits_value _ s); cbn [option_map]; [|reflexivity].
    f_equal. rewrite Nat2Z.inj_succ, Z.pow_succ_r by lia. lia.
Qed.

Lemma digits_value_from (s : string) (acc v : Z) :
  webcolors.digits_value 0 s = Some v ->
  webcolors.digits_value acc s = Some (acc * 10 ^ Z.of_nat (String.length s) + v).
Proof.
  intros H. replace acc with (0 + acc) at 1 by lia.
  rewrite digits_value_shift, H. cbn [option_map]. f_equal. lia.
Qed.

Lemma digits_value_zeros (n : nat) (acc : Z) :
  webcolors.digits_value acc (Float64.zeros n) = Some (acc * 10 ^ Z.of_nat n).
Proof.
  revert acc. induction n as [|n IH]; intros acc; cbn [Float64.zeros webcolors.digits_value].
  - f_equal. cbn. lia.
  - cbn [webcolors.is_digit]. change (webcolors.is_digit "0") with true. cbn iota.
    rewrite IH. f_equal. rewrite Nat2Z.inj_succ, Z.pow_succ_r by lia.
    change (Z.of_N (N_of_ascii "0" - 48)) with 0. lia.
Qed.

Lemma zeros_length (n : nat) : String.length (Float64.zeros n) = n.
Proof. induction n; cbn; congruence. Qed.

(** The digits of [Stdlib]'s decimal numbers are read back. *)
Lemma digits_value_uint_acc (d : Decimal.uint) (acc : positive) :
  webcolors.digits_value (Zpos acc) (DecimalString.NilEmpty.string_of_uint d)
  = Some (Zpos (Pos.of_uint_acc d acc)).
Proof.
  revert acc. induction d; intros acc;
    cbn [DecimalString.NilEmpty.string_of_uint webcolors.digits_value Pos.of_uint_acc];
    try reflexivity;
    match goal with
    | |- context [webcolors.is_digit ?c] => change (webcolors.is_digit c) with true
    end; cbn iota; rewrite <- IHd; f_equal;
    try match goal with
        | |- context [Z.of_N ?x] =>
            let v := eval vm_compute in (Z.of_N x) in change (Z.of_N x) with v
        end; lia.
Qed.

Lemma digits_value_uint (d : Decimal.uint) :
  webcolors.digits_value 0 (DecimalString.NilEmpty.string_of_uint d)
  = Some (Z.of_N (Pos.of_uint d)).
Proof.
  induction d;
    cbn [DecimalString.NilEmpty.string_of_uint webcolors.digits_value Pos.of_uint];
    try reflexivity;
    match goal with
    | |- context [webcolors.is_digit ?c] => change (webcolors.is_digit c) with true
    end; cbn iota; try exact IHd;
    match goal with
    | |- webcolors.digits_value ?a _ = _ =>
        let a' := eval cbn in a in change a with a'
    end; apply digits_value_uint_acc.
Qed.

Lemma str_of_Z_pos (p : positive) :
  Float64.str_of_Z (Zpos p)
  = DecimalString.NilEmpty.string_of_uint (Pos.to_uint p).
Proof.
  unfold Float64.str_of_Z. cbn [Z.to_int DecimalString.NilZero.string_of_int].
  unfold DecimalString.NilZero.string_of_uint.
  pose proof (DecimalPos.Unsigned.to_uint_nonnil p) as H.
  destruct (Pos.to_uint p); congruence.
Qed.

Lemma str_of_Z_neg (p : positive) :
  Float64.str_of_Z (Zneg p) = String "-" (Float64.str_of_Z (Zpos p)).
Proof. reflexivity. Qed.

(** The text of a natural number is a non-empty run of digits that is
    read back as the number. *)
Lemma digits_value_str (z : Z) :
  0 <= z -> webcolors.digits_value 0 (Float64.str_of_Z z) = Some z.
Proof.
  intros Hz. destruct z as [|p|p]; [reflexivity | | lia].
  rewrite str_of_Z_pos, digits_value_uint, DecimalPos.Unsigned.of_to. reflexivity.
Qed.

Lemma str_of_Z_nonempty (z : Z) : Float64.str_of_Z z <> "".
Proof.
  destruct z as [|p|p]; [discriminate | | discriminate].
  intros E. pose proof (digits_value_str (Zpos p) ltac:(lia)) as H.
  rewrite E in H. discriminate.
Qed.

(** ** Reading back the text of a number *)

Lemma no_char_app (c : ascii) (a b : string) :
  no_char c (a ++ b) = no_char c a && no_char c b.
Proof.
  induction a as [|x a IH]; cbn [append no_char]; [reflexivity|].
  now rewrite IH, andb_assoc.
Qed.

Lemma no_char_digits (c : ascii) (s : string) (acc v : Z) :
  webcolors.is_digit c = false ->
  webcolors.digits_value acc s = Some v -> no_char c s = true.
Proof.
  intros Hc. revert acc. induction s as [|a s IH]; intros acc;
    cbn [webcolors.digits_value no_char]; [reflexivity|].
  destruct (webcolors.is_digit a) eqn:Ha; [|discriminate].
  intros H. rewrite (IH _ H), andb_true_r.
  destruct (Ascii.eqb_spec a c) as [-> | _]; [congruence | reflexivity].
Qed.

Lemma split_at_none (c : ascii) (s : string) :
  no_char c s = true -> webcolors.split_at c s = (s, None).
Proof.
  induction s as [|a s IH]; cbn [no_char webcolors.split_at]; [reflexivity|].
  intros H. apply andb_true_iff in H. destruct H as [Ha Hs].
  apply negb_true_iff in Ha. now rewrite Ha, (IH Hs).
Qed.

Lemma split_at_hit (c : ascii) (a b : string) :
  no_char c a = true -> webcolors.split_at c (a ++ String c b) = (a, Some b).
Proof.
  induction a as [|x a IH]; cbn [append no_char webcolors.split_at].
  - now rewrite Ascii.eqb_refl.
  - intros H. apply andb_true_iff in H. destruct H as [Hx Ha].
    apply negb_true_iff in Hx. now rewrite Hx, (IH Ha).
Qed.

Lemma split_chars_app (n : nat) (s l r : string) :
  PyString.split_chars n s = (l, r) ->
  l ++ r = s /\ String.length l = Nat.min n (String.length s).
Proof.
  revert s l r. induction n as [|n IH]; intros s l r.
  - cbn. intros E. injection E as <- <-. auto.
  - destruct s as [|c s]; cbn [PyString.split_chars].
    + intros E. injection E as <- <-. auto.
    + destruct (PyString.split_chars n s) as [l' r'] eqn:E'.
      intros E. injection E as <- <-.
      destruct (IH s l' r' E') as [Ha Hl]. cbn. split; congruence.
Qed.

Lemma natural_digits (s : string) (v : Z) :
  s <> "" -> webcolors.digits_value 0 s = Some v -> webcolors.natural s = Some v.
Proof. destruct s; [congruence | auto]. Qed.

Lemma integer_exponent_text (x : Z) :
  webcolors.integer (Float64.exponent_text x) = Some x.
Proof.
  unfold Float64.exponent_text.
  set (a := Float64.str_of_Z (Z.abs x)).
  assert (Ha : webcolors.digits_value 0 a = Some (Z.abs x))
    by (apply digits_value_str; lia).
  assert (Hn : a <> "") by apply str_of_Z_nonempty.
  assert (Hp : webcolors.natural
                 (if (String.length a <? 2)%nat then String "0" a else a)
               = Some (Z.abs x)).
  { destruct (String.length a <? 2)%nat.
    - cbn [webcolors.natural webcolors.digits_value].
      change (webcolors.is_digit "0") with true. cbn iota. exact Ha.
    - now apply natural_digits. }
  destruct (Z.ltb_spec x 0); cbn [append webcolors.integer].
  - rewrite Hp. cbn [option_map]. f_equal. lia.
  - rewrite Hp. f_equal. lia.
Qed.

Lemma unsigned_decimal_layout (digits exp10 : Z) :
  0 <= digits ->
  exists d, webcolors.unsigned_decimal (Float64.layout digits exp10) = Some d
            /\ reads_as d digits exp10.
Proof.
  intros Hd. unfold Float64.layout.
  remember (Float64.str_of_Z digits) as ds eqn:Eds.
  assert (Hv : webcolors.digits_value 0 ds = Some digits)
    by (subst ds; now apply digits_value_str).
  assert (Hne : ds <> "") by (subst ds; apply str_of_Z_nonempty).
  clear Eds.
  assert (Hnat : webcolors.natural ds = Some digits) by now apply natural_digits.
  assert (He : no_char "e" ds = true) by now apply (no_char_digits "e" ds 0 digits).
  assert (Hdot : no_char "." ds = true) by now apply (no_char_digits "." ds 0 digits).
  cbv zeta.
  destruct ((Z.of_nat (String.length ds) + exp10 <=? -4)
            || (16 <? Z.of_nat (String.length ds) + exp10)) eqn:Hexp.
  - (* exponent notation *)
    clear Hexp. destruct ds as [|d1 rest]; [congruence|].
    exists {| webcolors.mantissa := digits; webcolors.exponent := exp10 |}.
    split; [|now left].
    cbn [no_char] in He, Hdot.
    apply andb_true_iff in He, Hdot. destruct He as [A B], Hdot as [C D].
    apply negb_true_iff in A, C.
    destruct rest as [|d2 rest'].
    + cbn [append]. unfold webcolors.unsigned_decimal.
      cbn [webcolors.split_at]. rewrite A, Ascii.eqb_refl.
      cbn [webcolors.split_at]. rewrite C. cbn [append].
      rewrite Hnat, integer_exponent_text. do 2 f_equal.
      cbn [String.length]. lia.
    + remember (String d2 rest') as rest eqn:Erest.
      assert (Hlen : String.length (String d1 rest) = S (String.length rest))
        by reflexivity.
      rewrite Hlen.
      change (String d1 "." ++ rest ++ "e"
              ++ Float64.exponent_text
                   (Z.of_nat (S (String.length rest)) + exp10 - 1))
        with (String d1 (String "." (rest ++ String "e"
                (Float64.exponent_text
                   (Z.of_nat (S (String.length rest)) + exp10 - 1))))).
      unfold webcolors.unsigned_decimal.
      cbn [webcolors.split_at]. rewrite A.
      change (Ascii.eqb "." "e") with false. cbn iota.
      rewrite (split_at_hit "e" rest _ B).
      cbn [webcolors.split_at]. rewrite C, Ascii.eqb_refl.
      change (String d1 "" ++ rest) with (String d1 rest).
      rewrite Hnat, integer_exponent_text. do 2 f_equal. lia.
  - apply orb_false_iff in Hexp. destruct Hexp as [H1 H2].
    apply Z.leb_gt in H1. apply Z.ltb_ge in H2.
    destruct (Z.leb_spec (Z.of_nat (String.length ds) + exp10) 0) as [H3|H3].
    + (* 0.000ddd *)
      exists {| webcolors.mantissa := digits; webcolors.exponent := exp10 |}.
      split; [|now left].
      set (z := Z.to_nat (- (Z.of_nat (String.length ds) + exp10))).
      change ("0." ++ Float64.zeros z ++ ds)
        with (String "0" (String "." (Float64.zeros z ++ ds))).
      assert (Hz : webcolors.digits_value 0 (Float64.zeros z ++ ds) = Some digits).
      { rewrite digits_value_app, digits_value_zeros. exact Hv. }
      unfold webcolors.unsigned_decimal.
      rewrite split_at_none.
      2:{ cbn [no_char]. change (Ascii.eqb "0" "e") with false.
          change (Ascii.eqb "." "e") with false. cbn [negb andb].
          now apply (no_char_digits "e" _ 0 digits). }
      cbn [webcolors.split_at]. change (Ascii.eqb "0" ".") with false.
      rewrite Ascii.eqb_refl.
      change (String "0" "" ++ Float64.zeros z ++ ds)
        with (String "0" (Float64.zeros z ++ ds)).
      cbn [webcolors.natural webcolors.digits_value].
      change (webcolors.is_digit "0") with true. cbn iota.
      change (10 * 0 + Z.of_N (N_of_ascii "0" - 48)) with 0.
      rewrite Hz. do 2 f_equal.
      rewrite string_app_length, zeros_length. unfold z. lia.
    + destruct (Z.leb_spec (Z.of_nat (String.length ds))
                  (Z.of_nat (String.length ds) + exp10)) as [H4|H4].
      * (* ddd000.0 *)
        exists {| webcolors.mantissa := digits * 10 ^ (exp10 + 1);
                  webcolors.exponent := -1 |}.
        split; [|right; split; [lia | reflexivity]].
        replace (Z.of_nat (String.length ds) + exp10 - Z.of_nat (String.length ds))
          with exp10 by lia.
        set (k := Z.to_nat exp10).
        assert (Hk : webcolors.digits_value 0 (ds ++ Float64.zeros k)
                     = Some (digits * 10 ^ exp10)).
        { rewrite digits_value_app, Hv, digits_value_zeros. unfold k.
          rewrite Z2Nat.id by lia. reflexivity. }
        rewrite <- string_app_assoc.
        change (".0") with (String "." "0").
        unfold webcolors.unsigned_decimal.
        rewrite split_at_none.
        2:{ rewrite no_char_app. rewrite (no_char_digits "e" _ 0 _ eq_refl Hk).
            reflexivity. }
        rewrite split_at_hit by exact (no_char_digits "." _ 0 _ eq_refl Hk).
        rewrite natural_digits with (v := digits * 10 ^ (exp10 + 1)).
        -- reflexivity.
        -- destruct ds; [congruence | discriminate].
        -- rewrite digits_value_app, Hk.
           cbn [webcolors.digits_value]. change (webcolors.is_digit "0") with true.
           cbn iota. change (Z.of_N (N_of_ascii "0" - 48)) with 0.
           f_equal. rewrite Z.pow_add_r by lia. lia.
      * (* ddd.ddd *)
        exists {| webcolors.mantissa := digits; webcolors.exponent := exp10 |}.
        split; [|now left].
        destruct (PyString.split_chars
                    (Z.to_nat (Z.of_nat (String.length ds) + exp10)) ds)
          as [ip fp] eqn:Esp.
        destruct (split_chars_app _ _ _ _ Esp) as [Happ Hlen].
        assert (Hparts : exists w, webcolors.digits_value 0 ip = Some w
                                   /\ webcolors.digits_value w fp = Some digits).
        { rewrite <- Happ, digits_value_app in Hv.
          destruct (webcolors.digits_value 0 ip) as [w|]; [|discriminate].
          now exists w. }
        destruct Hparts as (w & Hip & Hfp).
        change ("." ++ fp) with (String "." fp).
        unfold webcolors.unsigned_decimal.
        rewrite split_at_none.
        2:{ rewrite no_char_app. cbn [no_char].
            rewrite (no_char_digits "e" _ _ _ eq_refl Hip),
                    (no_char_digits "e" _ _ _ eq_refl Hfp). reflexivity. }
        rewrite split_at_hit by exact (no_char_digits "." _ _ _ eq_refl Hip).
        rewrite Happ, Hnat. do 2 f_equal.
        assert (Hl : String.length ds = (String.length ip + String.length fp)%nat)
          by (rewrite <- Happ; apply string_app_length).
        lia.
Qed.

Lemma percent_body_app (s : string) : webcolors.percent_body (s ++ "%") = Some s.
Proof.
  induction s as [|c s IH]; [reflexivity|].
  cbn [append]. cbn [webcolors.percent_body].
  destruct (s ++ "%") eqn:E.
  - destruct s; discriminate.
  - now rewrite IH.
Qed.

(** A text with a sign in front is no unsigned numeral. *)
Lemma unsigned_decimal_no_digit (c : ascii) (s : string) :
  webcolors.is_digit c = false -> Ascii.eqb c "e" = false ->
  Ascii.eqb c "." = false ->
  webcolors.unsigned_decimal (String c s) = None.
Proof.
  intros Hd He Hp. unfold webcolors.unsigned_decimal.
  cbn [webcolors.split_at]. rewrite He.
  destruct (webcolors.split_at "e" s) as [l r].
  cbn [webcolors.split_at]. rewrite Hp.
  destruct (webcolors.split_at "." l) as [ip fp].
  cbn [append webcolors.natural webcolors.digits_value]. now rewrite Hd.
Qed.

Lemma parse_decimal_unsigned (s : string) (d : webcolors.decimal) :
  webcolors.unsigned_decimal s = Some d -> webcolors.parse_decimal s = Some d.
Proof.
  destruct s as [|c s]; [auto|].
  destruct (Ascii.eqb_spec c "-") as [->|Hm].
  { now rewrite unsigned_decimal_no_digit. }
  destruct (Ascii.eqb_spec c "+") as [->|Hp].
  { now rewrite unsigned_decimal_no_digit. }
  intros H. rewrite <- H. unfold webcolors.parse_decimal.
  destruct c as [[] [] [] [] [] [] [] []]; try reflexivity; congruence.
Qed.

Lemma parse_decimal_str_of_Z (z : Z) :
  webcolors.parse_decimal (Float64.str_of_Z z)
  = Some {| webcolors.mantissa := z; webcolors.exponent := 0 |}.
Proof.
  assert (Hpos : forall n, 0 <= n ->
            webcolors.unsigned_decimal (Float64.str_of_Z n)
            = Some {| webcolors.mantissa := n; webcolors.exponent := 0 |}).
  { intros n Hn. pose proof (digits_value_str n Hn) as Hv.
    pose proof (str_of_Z_nonempty n) as Hne.
    unfold webcolors.unsigned_decimal.
    rewrite split_at_none by exact (no_char_digits "e" _ 0 n eq_refl Hv).
    rewrite split_at_none by exact (no_char_digits "." _ 0 n eq_refl Hv).
    assert (E : Float64.str_of_Z n ++ "" = Float64.str_of_Z n).
    { generalize (Float64.str_of_Z n). intros s.
      induction s as [|c s IH]; cbn [append]; congruence. }
    rewrite E, (natural_digits _ n Hne Hv). reflexivity. }
  destruct z as [|p|p].
  - apply parse_decimal_unsigned, Hpos. lia.
  - apply parse_decimal_unsigned, Hpos. lia.
  - rewrite str_of_Z_neg. cbn [append webcolors.parse_decimal].
    rewrite Hpos by lia. reflexivity.
Qed.

(** ** The digits that [str] writes *)

Lemma div_nonneg (n q : Z) : 0 <= n -> 0 <= q -> 0 <= n / q.
Proof.
  intros Hn Hq. destruct (Z.eq_dec q 0) as [->|Hz].
  - now rewrite Z.div_0_r.
  - apply Z.div_pos; lia.
Qed.

Lemma around_nonneg (m : positive) (e k : Z) :
  0 <= fst (fst (fst (Float64.around m e k))).
Proof.
  unfold Float64.around, Float64.exact_num, Float64.exact_den.
  cbv zeta. cbn [fst].
  assert (H2 : forall n, 0 <= 2 ^ n) by (intros n; apply Z.pow_nonneg; lia).
  assert (H10 : forall n, 0 <= 10 ^ n) by (intros n; apply Z.pow_nonneg; lia).
  apply div_nonneg.
  - destruct (0 <=? _), (0 <=? e);
      repeat apply Z.mul_nonneg_nonneg; auto; lia.
  - destruct (0 <=? _), (0 <=? e);
      repeat apply Z.mul_nonneg_nonneg; auto; lia.
Qed.

Lemma nearer_nonneg (lo r q : Z) : 0 <= lo -> 0 <= Float64.nearer lo r q.
Proof.
  intros H. unfold Float64.nearer.
  destruct (2 * r <? q), (q <? 2 * r), (Z.even lo); lia.
Qed.

Lemma shortest_nonneg (m : positive) (e : Z) (more : nat) (k : Z) :
  0 <= fst (Float64.shortest m e k more).
Proof.
  revert k. induction more as [|more IH]; intros k; cbn [Float64.shortest].
  - pose proof (around_nonneg m e k) as H.
    destruct (Float64.around m e k) as [[[lo x] r] q]. cbn [fst] in *.
    now apply nearer_nonneg.
  - unfold Float64.candidate. pose proof (around_nonneg m e k) as H.
    destruct (Float64.around m e k) as [[[lo x] r] q]. cbn [fst] in H.
    destruct (Float64.reads_back m e lo x), (Float64.reads_back m e (lo + 1) x);
      cbn [fst]; try lia; [now apply nearer_nonneg | apply IH].
Qed.

Lemma strip_zeros_nonneg (more : nat) (digits exp10 : Z) :
  0 <= digits -> 0 <= fst (Float64.strip_zeros more digits exp10).
Proof.
  revert digits exp10. induction more as [|more IH]; intros digits exp10 H;
    cbn [Float64.strip_zeros]; [exact H|].
  destruct ((0 <? digits) && (digits mod 10 =? 0)); [|exact H].
  apply IH, div_nonneg; lia.
Qed.

Lemma shortest_digits_nonneg (m : positive) (e : Z) :
  0 <= fst (Float64.shortest_digits m e).
Proof.
  unfold Float64.shortest_digits.
  pose proof (shortest_nonneg m e 16 1) as H.
  destruct (Float64.shortest m e 1 16) as [d x]. cbn [fst] in H.
  now apply strip_zeros_nonneg.
Qed.

(** ** The channel value of a percentage text *)

Lemma percent_to_integer_range (p : webcolors.decimal) :
  0 <= webcolors.percent_to_integer p <= 255.
Proof. unfold webcolors.percent_to_integer. cbv zeta. lia. Qed.

Lemma round_half_up_scale (n d k : Z) :
  0 < k ->
  webcolors.round_half_up (n * k) (d * k) = webcolors.round_half_up n d.
Proof.
  intros Hk. unfold webcolors.round_half_up.
  replace (2 * (n * k) + d * k) with ((2 * n + d) * k) by lia.
  replace (2 * (d * k)) with ((2 * d) * k) by lia.
  destruct (Z.eq_dec d 0) as [->|Hd].
  - cbn. now rewrite !Z.div_0_r.
  - apply Z.div_mul_cancel_r; lia.
Qed.

Lemma percent_to_integer_reads_as (d : webcolors.decimal) (m e : Z) :
  reads_as d m e ->
  webcolors.percent_to_integer d
  = webcolors.percent_to_integer
      {| webcolors.mantissa := m; webcolors.exponent := e |}
  /\ webcolors.percent_to_integer (webcolors.negate d)
     = webcolors.percent_to_integer
         {| webcolors.mantissa := - m; webcolors.exponent := e |}.
Proof.
  intros [-> | [He ->]]; [split; reflexivity|].
  assert (Hp : 0 < 10 ^ e) by (apply Z.pow_pos_nonneg; lia).
  assert (E : forall x,
            webcolors.round_half_up (255 * (x * 10 ^ (e + 1))) (100 * 10 ^ 1)
            = webcolors.round_half_up (255 * x * 10 ^ e) 100).
  { intros x. rewrite Z.pow_add_r by lia.
    replace (255 * (x * (10 ^ e * 10 ^ 1))) with (255 * x * 10 ^ e * 10) by lia.
    replace (100 * 10 ^ 1) with (100 * 10) by lia.
    apply round_half_up_scale. lia. }
  unfold webcolors.percent_to_integer, webcolors.negate.
  cbn [webcolors.mantissa webcolors.exponent].
  change (0 <=? -1) with false. cbv iota. change (- -1) with 1.
  destruct (Z.leb_spec 0 e); [|lia].
  cbv zeta. rewrite <- Z.mul_opp_l. rewrite !E. split; reflexivity.
Qed.

Lemma percent_channel_text (x : pynum) :
  option_map webcolors.percent_to_integer
    (webcolors.parse_percent (percent_text x))
  = percent_channel x.
Proof.
  unfold percent_text, webcolors.parse_percent.
  rewrite percent_body_app.
  destruct x as [z|f]; cbn [PyNumber.times_100 PyNumber.str percent_channel].
  - now rewrite parse_decimal_str_of_Z.
  - destruct (Float64.mul f (Float64.of_Z 100)) as [s|s| |s m e];
      cbn [Float64.str]; try (destruct s; reflexivity); try reflexivity.
    pose proof (shortest_digits_nonneg m e) as Hd.
    destruct (Float64.shortest_digits m e) as [digits exp10]. cbn [fst] in Hd.
    destruct (unsigned_decimal_layout digits exp10 Hd) as (d & Hu & Hr).
    destruct (percent_to_integer_reads_as d digits exp10 Hr) as [Hpos Hneg].
    destruct s.
    + cbn [append webcolors.parse_decimal]. rewrite Hu. cbn [option_map].
      now rewrite Hneg.
    + cbn [append]. rewrite (parse_decimal_unsigned _ _ Hu). cbn [option_map].
      now rewrite Hpos.
Qed.

(** ** Rounding a percentage *)

Lemma round_half_up_nearest (n d : Z) :
  0 < d -> nearest_half_up (webcolors.round_half_up n d) n d.
Proof.
  intros Hd. unfold nearest_half_up, webcolors.round_half_up.
  pose proof (Z.div_mod (2 * n + d) (2 * d) ltac:(lia)) as E.
  pose proof (Z.mod_pos_bound (2 * n + d) (2 * d) ltac:(lia)) as B.
  nia.
Qed.

Lemma channel_fraction_pos (p : webcolors.decimal) :
  0 < snd (channel_fraction p).
Proof.
  unfold channel_fraction. destruct (0 <=? webcolors.exponent p) eqn:E;
    cbn [snd]; [lia|].
  apply Z.leb_gt in E.
  pose proof (Z.pow_pos_nonneg 10 (- webcolors.exponent p)). lia.
Qed.

Lemma percent_to_integer_fraction (p : webcolors.decimal) :
  webcolors.percent_to_integer p
  = Z.max 0 (Z.min 255 (webcolors.round_half_up (fst (channel_fraction p))
                                                (snd (channel_fraction p)))).
Proof.
  unfold webcolors.percent_to_integer, channel_fraction.
  now destruct (0 <=? webcolors.exponent p).
Qed.

(** The channel value is the nearest integer to 255 * p / 100, a half
    going up, on a percentage from 0 to 100; it is 0 below and 255
    above. *)
Lemma percent_to_integer_nearest (p : webcolors.decimal) :
  let n := fst (channel_fraction p) in
  let d := snd (channel_fraction p) in
  let k := webcolors.percent_to_integer p in
  (0 <= n <= 255 * d -> nearest_half_up k n d)
  /\ (n < 0 -> k = 0)
  /\ (255 * d < n -> k = 255).
Proof.
  intros n d k. unfold k. rewrite percent_to_integer_fraction. fold n d.
  pose proof (channel_fraction_pos p) as Hd. fold d in Hd.
  pose proof (round_half_up_nearest n d Hd) as H.
  unfold nearest_half_up in *.
  set (q := webcolors.round_half_up n d) in *.
  split; [|split]; intros Hn.
  - assert (0 <= q <= 255) by nia.
    rewrite Z.min_r, Z.max_r by lia. exact H.
  - assert (q <= 0) by nia. lia.
  - assert (255 <= q) by nia. lia.
Qed.

(** ** Dictionaries *)

Lemma dict_get_In (d : list (string * string)) (key v : string) :
  dict_get d key = Some v -> In (key, v) d.
Proof.
  induction d as [|[k0 v0] d IH]; cbn [dict_get In]; [discriminate|].
  destruct (String.eqb_spec key k0) as [-> | Hne].
  - intros E. injection E as ->. now left.
  - intros E. right. now apply IH.
Qed.

Lemma dict_get_None (d : list (string * string)) (key : string) :
  dict_get d key = None -> forall v, ~ In (key, v) d.
Proof.
  induction d as [|[k0 v0] d IH]; cbn [dict_get In]; [tauto|].
  destruct (String.eqb_spec key k0) as [-> | Hne]; [discriminate|].
  intros E v [H | H]; [congruence | now apply (IH E v)].
Qed.

Lemma dict_get_absent (d : list (string * string)) (key : string) :
  (forall v, ~ In (key, v) d) -> dict_get d key = None.
Proof.
  intros H. destruct (dict_get d key) as [v|] eqn:E; [|reflexivity].
  apply dict_get_In in E. now apply H in E.
Qed.

Lemma lower_char_hash (c : ascii) :
  Ascii.eqb (PyString.lower_char c) "#" = Ascii.eqb c "#".
Proof.
  destruct c as [[] [] [] [] [] [] [] []]; reflexivity.
Qed.

(** ** getColor *)

Section ColorProperties.

Variable css3 : list (string * string).

(** The sequence branch is the one taken for a list-like value. *)
Lemma getColor_list_like (color : pyobj) :
  isListLike color = true ->
  exists items, (color = PyList items \/ color = PyTuple items)
                /\ getColor css3 color = color_of_sequence items.
Proof.
  destruct color as [s|y|b|n|l|l|]; try discriminate; intros _; exists l; auto.
Qed.

Lemma getColor_hex (rest : string) :
  getColor css3 (PyStr (String "#" rest))
  = webcolors.normalize_hex (String "#" rest).
Proof. reflexivity. Qed.

(** C1.  The empty string is an input on which [getColor] neither
    returns a color nor raises its [GraphException]: taking [color[0]]
    raises [IndexError]. *)
Theorem getColor_empty_string : getColor css3 (PyStr "") = Raise IndexError.
Proof. reflexivity. Qed.

(** The percentage conversion of the texts of three numbers is the
    color of their channel values. *)
Lemma rgb_percent_to_hex_channels (a b c : pynum) :
  webcolors.rgb_percent_to_hex [percent_text a; percent_text b; percent_text c]
  = color_of_channels (percent_channel a) (percent_channel b)
                      (percent_channel c).
Proof.
  rewrite <- !percent_channel_text. unfold webcolors.rgb_percent_to_hex.
  destruct (webcolors.parse_percent (percent_text a)) as [pa|];
    destruct (webcolors.parse_percent (percent_text b)) as [pb|];
    destruct (webcolors.parse_percent (percent_text c)) as [pc|];
    cbn [option_map color_of_channels]; try reflexivity.
  cbn [webcolors.rgb_to_hex].
  now rewrite !format_02x_byte by apply percent_to_integer_range.
Qed.

Lemma color_of_sequence_percent (color : list pynum) :
  Forall valid_number color -> Exists below_one color ->
  color_of_sequence color
  = webcolors.rgb_percent_to_hex
      (map percent_text
           match color with [c0] => [c0; c0; c0] | _ => color end).
Proof.
  intros Hv He. unfold color_of_sequence.
  now rewrite (proj2 (percent_scan_below_one color Hv) He).
Qed.



(** C3.  A boolean is not a number for [isNum], and [getColor] on it
    raises [GraphException] with the message
    'invalid color specification: True' (or 'False'), which mentions
    "specification"; the numbers 1 and 0 are converted to colors. *)
Theorem getColor_boolean (b : bool) :
  isNum (PyBool b) = false
  /\ (exists msg,
         getColor css3 (PyBool b) = Raise (GraphException msg)
         /\ msg = "invalid color specification: "
                  ++ (if b then "True" else "False")
         /\ PyString.contains "specification" msg = true)
  /\ getColor css3 (PyNum (PyInt 1)) = Ok "#010101"
  /\ getColor css3 (PyNum (PyInt 0)) = Ok "#000000".
Proof.
  split; [reflexivity|]. split; [|split; reflexivity].
  eexists. split; [reflexivity|]. split; [reflexivity|]. now destruct b.
Qed.

(** C5.  In percent mode each channel value [v] is written as the text
    [str(v * 100) + "%"], and the text is read back as the number it
    writes and sent to its channel value [percent_channel v]: the color
    of three numbers, one of them below 1, is made of their channel
    values.  A scalar is treated as the list of three copies of it, and
    so is a single channel below 1.  The channel value of a percentage
    from 0 to 100 is the nearest integer to 255 * p / 100, a half going
    up; it is 0 for a percentage below 0 and 255 above 100.  So
    [getColor([0.5, 0.5, 0.5])] is '#808080', and [getColor(0.8)] and
    [getColor([0.8])] are '#cccccc'; the small fraction 2.5e-07, whose
    percentage is written with an exponent, gives '#000000'. *)
Theorem getColor_percent :
  (forall a b c,
      valid_number a -> valid_number b -> valid_number c ->
      Exists below_one [a; b; c] ->
      getColor css3 (PyList [a; b; c])
      = color_of_channels (percent_channel a) (percent_channel b)
                          (percent_channel c))
  /\ (forall v, getColor css3 (PyNum v) = getColor css3 (PyList [v; v; v]))
  /\ (forall v,
         valid_number v -> below_one v ->
         getColor css3 (PyList [v]) = getColor css3 (PyList [v; v; v])
         /\ getColor css3 (PyNum v)
            = color_of_channels (percent_channel v) (percent_channel v)
                                (percent_channel v))
  /\ (forall x,
         option_map webcolors.percent_to_integer
           (webcolors.parse_percent (percent_text x))
         = percent_channel x)
  /\ (forall p : webcolors.decimal,
         let n := fst (channel_fraction p) in
         let d := snd (channel_fraction p) in
         let k := webcolors.percent_to_integer p in
         (0 <= n <= 255 * d -> nearest_half_up k n d)
         /\ (n < 0 -> k = 0)
         /\ (255 * d < n -> k = 255))
  /\ percent_text (PyFloat float_0_5) = "50.0%"
  /\ percent_text (PyFloat float_0_8) = "80.0%"
  /\ percent_text (PyFloat float_2_5e_07) = "2.4999999999999998e-05%"
  /\ percent_text (PyInt 1) = "100%"
  /\ getColor css3
       (PyList [PyFloat float_0_5; PyFloat float_0_5; PyFloat float_0_5])
     = Ok "#808080"
  /\ getColor css3 (PyNum (PyFloat float_0_8)) = Ok "#cccccc"
  /\ getColor css3 (PyList [PyFloat float_0_8]) = Ok "#cccccc"
  /\ getColor css3 (PyNum (PyFloat float_2_5e_07)) = Ok "#000000"
  /\ getColor css3 (PyList [PyInt 0; PyInt 1; PyFloat float_0_5])
     = Ok "#00ff80"
  /\ getColor css3 (PyNum (PyInt 0)) = Ok "#000000"
  /\ getColor css3 (PyNum (PyInt (-1))) = Ok "#000000".
Proof.
  assert (H3 : forall a b c,
             valid_number a -> valid_number b -> valid_number c ->
             Exists below_one [a; b; c] ->
             getColor css3 (PyList [a; b; c])
             = color_of_channels (percent_channel a) (percent_channel b)
                                 (percent_channel c)).
  { intros a b c Ha Hb Hc He. cbn [getColor isNum].
    rewrite (color_of_sequence_percent [a; b; c]);
      [apply rgb_percent_to_hex_channels | | exact He].
    repeat (constructor; [assumption|]). constructor. }
  split; [exact H3|].
  split; [reflexivity|].
  split.
  { intros v Hv Hb. split.
    - cbn [getColor isNum].
      rewrite (color_of_sequence_percent [v]);
        [|repeat (constructor; [assumption|]); constructor
         |now constructor].
      rewrite (color_of_sequence_percent [v; v; v]);
        [reflexivity
        |repeat (constructor; [assumption|]); constructor
        |now constructor].
    - change (getColor css3 (PyNum v)) with (getColor css3 (PyList [v; v; v])).
      apply H3; auto. }
  split; [exact percent_channel_text|].
  split; [exact percent_to_integer_nearest|].
  repeat split; vm_compute; reflexivity.
Qed.

(** C8.  [getColor] is idempotent on valid hex strings: for a valid hex
    string [x] it returns a canonical color [y], and on [y] it returns
    [y] again. *)
Theorem getColor_hex_idempotent (x : string) :
  valid_hex x ->
  exists y, getColor css3 (PyStr x) = Ok y
            /\ getColor css3 (PyStr y) = Ok y
            /\ canonical_color y.
Proof.
  intros Hx. destruct (normalize_hex_valid x Hx) as (y & Hy & Hc).
  pose proof (normalize_hex_canonical y Hc) as Hyy.
  exists y. split; [|split; [|exact Hc]].
  - destruct Hx as (d & -> & _). now rewrite getColor_hex.
  - destruct Hc as (d & E & _). subst y. now rewrite getColor_hex.
Qed.

(** The outcome of the name branch, on the normalized name. *)
Lemma color_of_string_plain (s : string) :
  plain_name s ->
  color_of_string css3 s
  = (name <-
       (if (String.length (normalize_name s) =? 1)%nat then
          match dict_get colorMap (normalize_name s) with
          | Some name => Ok name
          | None =>
              Raise (GraphException
                       ("invalid color abbreviation: " ++ normalize_name s))
          end
        else Ok (normalize_name s)) ;;
     match dict_get css3 name with
     | Some hex => Ok hex
     | None => Raise (GraphException ("invalid color name: " ++ name))
     end).
Proof.
  intros (c0 & rest & -> & Hc). unfold color_of_string, normalize_name.
  now destruct (Ascii.eqb_spec c0 "#") as [|_]; [contradiction|].
Qed.

Lemma colorMap_entry (c name : string) :
  In (c, name) colorMap ->
  String.length c = 1%nat
  /\ dict_get colorMap c = Some name
  /\ plain_name name
  /\ normalize_name name = name
  /\ (String.length name =? 1)%nat = false.
Proof.
  intros H. cbn in H.
  repeat (destruct H as [H | H];
          [injection H as <- <-;
           repeat split; eexists _, _; (split; [reflexivity | discriminate])|]).
  destruct H.
Qed.

(** Every [GraphException] of [getColor] says "invalid color ...". *)
Lemma color_of_string_message (color msg : string) :
  color_of_string css3 color = Raise (GraphException msg) ->
  prefix "invalid color " msg = true.
Proof.
  unfold color_of_string. destruct color as [|c0 rest]; [discriminate|].
  destruct (Ascii.eqb c0 "#").
  - unfold webcolors.normalize_hex.
    repeat match goal with
           | |- context [match ?x with _ => _ end] => destruct x
           end; discriminate.
  - set (name := PyString.replace " " "" (PyString.lower (String c0 rest))).
    destruct (String.length name =? 1)%nat.
    + destruct (dict_get colorMap name) as [full|]; cbn [bind].
      * destruct (dict_get css3 full); intros H; inversion H. reflexivity.
      * intros H; inversion H. reflexivity.
    + cbn [bind]. destruct (dict_get css3 name); intros H; inversion H.
      reflexivity.
Qed.

Lemma rgb_to_hex_no_message (t : list pynum) (msg : string) :
  webcolors.rgb_to_hex t <> Raise (GraphException msg).
Proof.
  unfold webcolors.rgb_to_hex.
  repeat match goal with
         | |- context [match ?x with _ => _ end] => destruct x
         end; discriminate.
Qed.

Lemma color_of_sequence_no_message (color : list pynum) (msg : string) :
  color_of_sequence color <> Raise (GraphException msg).
Proof.
  unfold color_of_sequence.
  destruct (percent_scan color); [|apply rgb_to_hex_no_message].
  unfold webcolors.rgb_percent_to_hex.
  repeat match goal with
         | |- context [match ?x with _ => _ end] => destruct x
         end; try discriminate; apply rgb_to_hex_no_message.
Qed.

Lemma getColor_message (color : pyobj) (msg : string) :
  getColor css3 color = Raise (GraphException msg) ->
  prefix "invalid color " msg = true.
Proof.
  destruct color as [s|y|b|n|l|l|]; cbn [getColor isNum].
  - apply color_of_string_message.
  - intros H; inversion H. reflexivity.
  - intros H; inversion H. reflexivity.
  - intros H. now apply color_of_sequence_no_message in H.
  - intros H. now apply color_of_sequence_no_message in H.
  - intros H. now apply color_of_sequence_no_message in H.
  - intros H; inversion H. reflexivity.
Qed.

(** An invalid color raises the [GraphException] with its message. *)
Lemma invalid_color_raises (color : pyobj) (msg : string) :
  invalid_color css3 color msg ->
  getColor css3 color = Raise (GraphException msg).
Proof.
  intros H. destruct H as [s Hp Hl Hm | s name Hp Hn Hc | b | | b];
    try reflexivity; cbn [getColor isNum];
    rewrite (color_of_string_plain s Hp), normalize_name_lowercase.
  - rewrite Hl, (dict_get_absent colorMap _ Hm). reflexivity.
  - destruct Hn as [[Hl ->] | Hin].
    + apply Nat.eqb_neq in Hl. rewrite Hl. cbn [bind].
      now rewrite (dict_get_absent css3 _ Hc).
    + destruct (colorMap_entry _ _ Hin) as (Hl & Hd & _).
      rewrite Hl, Hd. cbn [Nat.eqb bind].
      now rewrite (dict_get_absent css3 _ Hc).
Qed.

(** A [GraphException] of [getColor] is raised on an invalid color
    only. *)
Lemma raises_invalid_color (color : pyobj) (msg : string) :
  getColor css3 color = Raise (GraphException msg) ->
  invalid_color css3 color msg.
Proof.
  destruct color as [s|y|b|n|l|l|]; cbn [getColor isNum].
  - destruct s as [|c0 rest]; [discriminate|].
    destruct (Ascii.eqb_spec c0 "#") as [-> | Hc].
    { unfold color_of_string. rewrite Ascii.eqb_refl. unfold webcolors.normalize_hex.
      repeat match goal with
             | |- context [match ?x with _ => _ end] => destruct x
             end; discriminate. }
    assert (Hp : plain_name (String c0 rest)) by (now exists c0, rest).
    rewrite (color_of_string_plain _ Hp), normalize_name_lowercase.
    set (v := without_spaces (lowercase (String c0 rest))).
    destruct (String.length v =? 1)%nat eqn:L.
    + destruct (dict_get colorMap v) as [name|] eqn:M; cbn [bind].
      * destruct (dict_get css3 name) eqn:D; [discriminate|].
        intros H. injection H as <-.
        apply (bad_name css3 (String c0 rest) name Hp).
        -- right. now apply dict_get_In.
        -- now apply dict_get_None.
      * intros H. injection H as <-.
        apply (bad_abbreviation css3 (String c0 rest) Hp).
        -- now apply Nat.eqb_eq.
        -- now apply dict_get_None.
    + cbn [bind]. destruct (dict_get css3 v) eqn:D; [discriminate|].
      intros H. injection H as <-.
      apply (bad_name css3 (String c0 rest) v Hp).
      * left. split; [now apply Nat.eqb_neq | reflexivity].
      * now apply dict_get_None.
  - intros H. injection H as <-. constructor.
  - intros H. injection H as <-. constructor.
  - intros H. now apply color_of_sequence_no_message in H.
  - intros H. now apply color_of_sequence_no_message in H.
  - intros H. now apply color_of_sequence_no_message in H.
  - intros H. injection H as <-. constructor.
Qed.

(** With matplotlib recorded as missing, no import is attempted and no
    warning is sent. *)
Lemma getExtendedModules_missing (env : import_env) :
  In "matplotlib" (missingImport env) ->
  getExtendedModules env
  = ([], Raise (GraphException
                  "could not find matplotlib, graphing is not allowed")).
Proof.
  intros H. unfold getExtendedModules.
  now rewrite (proj2 (mem_In _ _) H).
Qed.

(** C9, as amended.  An invalid color (a bad abbreviation, a bad name
    or a bad specification) makes [getColor] raise, and matplotlib
    recorded as missing makes [getExtendedModules] raise, and the two
    errors are of one and the same kind, [GraphException].  They differ
    in their messages: the first starts with 'invalid color ', the
    second is 'could not find matplotlib, graphing is not allowed'.
    The invalid colors are all the inputs on which [getColor] raises a
    [GraphException]. *)
Theorem graph_errors_share_kind
  (color : pyobj) (msg : string) (env : import_env) :
  invalid_color css3 color msg ->
  In "matplotlib" (missingImport env) ->
  (exists e1 e2,
      getColor css3 color = Raise e1
      /\ getExtendedModules env = ([], Raise e2)
      /\ kind_of e1 = KGraphException
      /\ kind_of e2 = KGraphException
      /\ message_of e1 = msg
      /\ prefix "invalid color " (message_of e1) = true
      /\ message_of e2 = "could not find matplotlib, graphing is not allowed"
      /\ message_of e1 <> message_of e2)
  /\ (forall color' msg',
         getColor css3 color' = Raise (GraphException msg')
         <-> invalid_color css3 color' msg').
Proof.
  intros Hc Hm. split.
  - exists (GraphException msg),
      (GraphException "could not find matplotlib, graphing is not allowed").
    pose proof (invalid_color_raises color msg Hc) as H1.
    pose proof (getColor_message color msg H1) as Hp.
    split; [exact H1|]. split; [now apply getExtendedModules_missing|].
    cbn [kind_of message_of]. repeat split; auto.
    intros ->. discriminate Hp.
  - intros color' msg'. split;
      [apply raises_invalid_color | apply invalid_color_raises].
Qed.

End ColorProperties.

(** C9, the claim as stated fails: the error of [getColor] on [True] and
    the error of [getExtendedModules] without matplotlib have the same
    kind. *)
Lemma color_error_and_missing_dependency_same_kind :
  exists e1 e2,
    getColor css3_sample (PyBool true) = Raise e1
    /\ snd (getExtendedModules no_matplotlib) = Raise e2
    /\ kind_of e1 = kind_of e2.
Proof. do 2 eexists. repeat split. Qed.

Lemma graph_errors_share_kind_witness :
  (exists e1 e2,
      getColor css3_sample (PyStr "l") = Raise e1
      /\ getExtendedModules no_matplotlib = ([], Raise e2)
      /\ kind_of e1 = KGraphException
      /\ kind_of e2 = KGraphException
      /\ message_of e1 = "invalid color abbreviation: l"
      /\ prefix "invalid color " (message_of e1) = true
      /\ message_of e2 = "could not find matplotlib, graphing is not allowed"
      /\ message_of e1 <> message_of e2)
  /\ (forall color' msg',
         getColor css3_sample color' = Raise (GraphException msg')
         <-> invalid_color css3_sample color' msg').
Proof.
  apply (graph_errors_share_kind css3_sample (PyStr "l")
           "invalid color abbreviation: l" no_matplotlib).
  - apply (bad_abbreviation css3_sample "l").
    + exists "l"%char, "". split; [reflexivity | discriminate].
    + reflexivity.
    + intros name H. cbn in H.
      repeat (destruct H as [H | H]; [discriminate|]). exact H.
  - cbn. tauto.
Defined.


Lemma getColor_hex_idempotent_witness :
  exists y, getColor css3_sample (PyStr "#f50") = Ok y
            /\ getColor css3_sample (PyStr y) = Ok y
            /\ canonical_color y.
Proof.
  apply (getColor_hex_idempotent css3_sample "#f50").
  exists "f50". split; [reflexivity|]. split; [left; reflexivity|].
  repeat (apply Forall_cons || apply Forall_nil); cbn; tauto.
Defined.

(** ** More on getExtendedModules *)


(** ** More on the value resolver *)

Lemma value_synonym_fixed (v : string) :
  value_synonym (normalize_name (value_synonym (normalize_name v)))
  = value_synonym (normalize_name v).
Proof.
  set (n := normalize_name v).
  unfold value_synonym at 2 3.
  repeat match goal with
         | |- context [if PyString.mem n ?t then _ else _] =>
             destruct (PyString.mem n t) eqn:?; [reflexivity|]
         end.
  unfold n. rewrite normalize_name_idempotent. fold n.
  unfold value_synonym.
  repeat match goal with
         | H : PyString.mem n ?t = false |- _ => rewrite H; clear H
         end.
  reflexivity.
Qed.

Lemma userValuesToValues_map (valueList : list string) :
  userValuesToValues (map PyStr valueList)
  = Ok (map (fun v => value_synonym (normalize_name v)) valueList).
Proof. unfold userValuesToValues. now rewrite values_loop_map. Qed.

(** X6.  [userValuesToValues] is idempotent: on its own result it
    returns that result. *)
Theorem userValuesToValues_idempotent (valueList : list string) :
  exists post,
    userValuesToValues (map PyStr valueList) = Ok post
    /\ userValuesToValues (map PyStr post) = Ok post.
Proof.
  eexists. split; [apply userValuesToValues_map|].
  rewrite userValuesToValues_map, map_map. f_equal.
  apply map_ext. intros v. apply value_synonym_fixed.
Qed.

(** The list built so far is a prefix of the result, and is lost on an
    error. *)
Lemma values_loop_post (valueList : list pyobj) (post : list string) :
  values_loop valueList post
  = (p <- values_loop valueList [] ;; Ok (post ++ p)%list).
Proof.
  revert post. induction valueList as [|[s|y|b|n|l|l|] rest IH]; intros post;
    cbn [values_loop bind app]; try reflexivity.
  - now rewrite app_nil_r.
  - rewrite IH. rewrite (IH [_]).
    destruct (values_loop rest []); cbn [bind app]; [|reflexivity].
    now rewrite <- app_assoc.
Qed.

Lemma values_loop_app (l1 l2 : list pyobj) (post : list string) :
  values_loop (l1 ++ l2) post
  = (p <- values_loop l1 post ;; values_loop l2 p).
Proof.
  revert post. induction l1 as [|[s|y|b|n|l|l|] rest IH]; intros post;
    cbn [values_loop bind app]; try reflexivity.
  apply IH.
Qed.

(** X8.  [userValuesToValues] on a concatenation is the concatenation of
    its results on the two parts, an error of either part being the
    error of the whole. *)
Theorem userValuesToValues_app (l1 l2 : list pyobj) :
  userValuesToValues (l1 ++ l2)
  = (p1 <- userValuesToValues l1 ;;
     p2 <- userValuesToValues l2 ;;
     Ok (p1 ++ p2)%list).
Proof.
  unfold userValuesToValues. rewrite values_loop_app.
  destruct (values_loop l1 []) as [p1|e]; cbn [bind]; [|reflexivity].
  apply values_loop_post.
Qed.

(** X7.  [userValuesToValues] returns a list, as long as its argument,
    exactly when every element is a string.  Otherwise nothing is
    returned, and the first element that is not a string decides the
    error: [TypeError] for a [bytes] value, which has [lower] and whose
    [replace] refuses the text arguments, and [AttributeError] for the
    other values, which have no [lower]. *)
Theorem userValuesToValues_error (valueList : list pyobj) :
  match find (fun o => negb (is_text o)) valueList with
  | None =>
      exists post, userValuesToValues valueList = Ok post
                   /\ List.length post = List.length valueList
  | Some (PyBytes _) => userValuesToValues valueList = Raise TypeError
  | Some _ => userValuesToValues valueList = Raise AttributeError
  end.
Proof.
  unfold userValuesToValues.
  assert (G : forall post,
             match find (fun o => negb (is_text o)) valueList with
             | None =>
                 exists out, values_loop valueList post = Ok out
                   /\ List.length out
                      = (List.length post + List.length valueList)%nat
             | Some (PyBytes _) => values_loop valueList post = Raise TypeError
             | Some _ => values_loop valueList post = Raise AttributeError
             end).
  { induction valueList as [|[s|y|b|n|l|l|] rest IH]; intros post;
      cbn [values_loop find is_text negb]; try reflexivity.
    - exists post. cbn. split; [reflexivity|lia].
    - specialize (IH (post ++ [value_synonym
                                 (PyString.replace " " "" (PyString.lower s))])%list).
      destruct (find (fun o => negb (is_text o)) rest) as [o|]; [exact IH|].
      destruct IH as (out & Ho & Hl). exists out. split; [exact Ho|].
      rewrite Hl, length_app. cbn. lia. }
  specialize (G []).
  destruct (find (fun o => negb (is_text o)) valueList) as [o|]; [exact G|].
  destruct G as (out & Ho & Hl). exists out. auto.
Qed.

(** ** More on strings *)

Lemma lower_app (s1 s2 : string) :
  PyString.lower (s1 ++ s2) = PyString.lower s1 ++ PyString.lower s2.
Proof. induction s1 as [|c s1 IH]; cbn; congruence. Qed.

Lemma subst_char_app (c : ascii) (new s1 s2 : string) :
  subst_char c new (s1 ++ s2) = subst_char c new s1 ++ subst_char c new s2.
Proof.
  induction s1 as [|a s1 IH]; cbn [append subst_char]; [reflexivity|].
  rewrite IH. destruct (Ascii.eqb a c); cbn [append]; [|reflexivity].
  now rewrite string_app_assoc.
Qed.

Lemma normalize_name_space (s1 s2 : string) :
  normalize_name (s1 ++ String " " s2) = normalize_name (s1 ++ s2).
Proof.
  rewrite !normalize_name_eq, !lower_app. unfold without_spaces.
  rewrite !subst_char_app. reflexivity.
Qed.

Lemma normalize_name_case (s1 s2 : string) (c : ascii) :
  normalize_name (s1 ++ String c s2)
  = normalize_name (s1 ++ String (PyString.lower_char c) s2).
Proof.
  rewrite !normalize_name_eq, !lower_app. cbn [PyString.lower].
  now rewrite lower_char_idempotent.
Qed.

(** ** More on the format resolver *)

(** X4.  The result of [userFormatsToFormat] does not change when a
    space is inserted anywhere in the input, nor when a character is
    replaced by its lowercase form of the character table. *)
Theorem userFormatsToFormat_insensitive (s1 s2 : string) (c : ascii) :
  userFormatsToFormat (PyStr (s1 ++ String " " s2))
  = userFormatsToFormat (PyStr (s1 ++ s2))
  /\ userFormatsToFormat (PyStr (s1 ++ String c s2))
     = userFormatsToFormat (PyStr (s1 ++ String (lowercase_char c) s2))
  /\ userFormatsToFormat (PyStr "Piano Roll")
     = userFormatsToFormat (PyStr "pianoroll")
  /\ userFormatsToFormat (PyStr "Piano Roll") = Ok "horizontalbar".
Proof.
  unfold userFormatsToFormat.
  rewrite normalize_name_space, <- lower_char_lowercase, <- normalize_name_case.
  repeat split.
Qed.

Lemma scan_synonyms_member (value : string) (g : list string) :
  In g FORMAT_SYNONYMS -> In value g ->
  scan_synonyms value FORMAT_SYNONYMS = first_of g
  /\ exists canonical, first_of g = Ok canonical /\ In canonical FORMATS.
Proof.
  intros Hg Hv. cbn in Hg.
  repeat (destruct Hg as [<- | Hg];
          [cbn in Hv;
           repeat (destruct Hv as [<- | Hv];
                   [split; [reflexivity|eexists; split; [reflexivity|cbn; tauto]]|]);
           destruct Hv|]).
  destruct Hg.
Qed.

Lemma FORMATS_in_groups (value : string) :
  In value FORMATS -> exists g, In g FORMAT_SYNONYMS /\ In value g.
Proof.
  intros H.
  exists (value :: match find (fun g => PyString.mem value g) FORMAT_SYNONYMS with
                   | Some g => tl g
                   | None => []
                   end).
  cbn in H.
  repeat (destruct H as [<- | H]; [cbn; tauto|]). destruct H.
Qed.

(** X5.  No normalized input belongs to two synonym groups: whichever
    group of [FORMAT_SYNONYMS] holds it, the result is the first member
    of that group.  The result is one of [FORMATS] exactly when some
    group holds the normalized input. *)
Theorem userFormatsToFormat_any_group (s : string) :
  let value := without_spaces (PyString.lower s) in
  (forall g, In g FORMAT_SYNONYMS -> In value g ->
             userFormatsToFormat (PyStr s) = first_of g)
  /\ (forall r, userFormatsToFormat (PyStr s) = Ok r ->
                (In r FORMATS <-> exists g, In g FORMAT_SYNONYMS /\ In value g)).
Proof.
  cbn zeta. unfold userFormatsToFormat. rewrite normalize_name_eq.
  set (value := without_spaces (PyString.lower s)).
  split.
  - intros g Hg Hv. now apply scan_synonyms_member.
  - intros r Hr. split.
    + intros Hin.
      destruct (scan_synonyms_first value FORMAT_SYNONYMS FORMAT_SYNONYMS_nonempty)
        as [(before & c & rest & after & E & Hv & _ & _) | (_ & Hs)].
      * exists (c :: rest). split; [|exact Hv].
        rewrite E. apply in_or_app. right. left. reflexivity.
      * rewrite Hs in Hr. injection Hr as <-. now apply FORMATS_in_groups.
    + intros (g & Hg & Hv).
      destruct (scan_synonyms_member value g Hg Hv) as (E & c & Hc & Hin).
      rewrite E, Hc in Hr. now injection Hr as <-.
Qed.

(** ** More on the accidental glyph converter *)

Lemma chars_app (s1 s2 : string) :
  list_ascii_of_string (s1 ++ s2)
  = (list_ascii_of_string s1 ++ list_ascii_of_string s2)%list.
Proof. induction s1 as [|c s1 IH]; cbn; congruence. Qed.

Lemma subst_char_absent (c : ascii) (new s : string) :
  ~ In c (list_ascii_of_string s) -> subst_char c new s = s.
Proof.
  induction s as [|a s IH]; cbn [list_ascii_of_string subst_char In];
    [reflexivity|].
  intros H. destruct (Ascii.eqb_spec a c) as [-> | Hne]; [tauto|].
  rewrite IH; tauto.
Qed.

Lemma In_subst_char (a c : ascii) (new s : string) :
  In a (list_ascii_of_string (subst_char c new s))
  <-> (a <> c /\ In a (list_ascii_of_string s))
      \/ (In c (list_ascii_of_string s) /\ In a (list_ascii_of_string new)).
Proof.
  induction s as [|b s IH]; cbn [list_ascii_of_string subst_char In]; [tauto|].
  destruct (Ascii.eqb_spec b c) as [-> | Hne].
  - rewrite chars_app, in_app_iff, IH. intuition congruence.
  - cbn [list_ascii_of_string In]. rewrite IH. intuition congruence.
Qed.

Lemma subst_char_commute (flat sharp s : string) :
  clean_glyph flat -> clean_glyph sharp ->
  subst_char "#" sharp (subst_char "-" flat s)
  = subst_char "-" flat (subst_char "#" sharp s).
Proof.
  intros [_ Hf] [Hs _].
  induction s as [|a s IH]; [reflexivity|].
  cbn [subst_char].
  destruct (Ascii.eqb a "-") eqn:E1; destruct (Ascii.eqb a "#") eqn:E2.
  - apply Ascii.eqb_eq in E1, E2. congruence.
  - rewrite subst_char_app, (subst_char_absent "#" sharp flat Hf).
    cbn [subst_char]. now rewrite E1, IH.
  - rewrite subst_char_app, (subst_char_absent "-" flat sharp Hs).
    cbn [subst_char]. now rewrite E2, IH.
  - cbn [subst_char]. now rewrite E1, E2, IH.
Qed.

Lemma dict_value_unique (t : list (string * string)) (k v v' : string) :
  NoDup (map fst t) -> In (k, v) t -> In (k, v') t -> v = v'.
Proof.
  induction t as [|[k0 v0] t IH]; cbn [map fst In]; [tauto|].
  intros Hd. inversion_clear Hd as [|? ? Hk Ht].
  intros [E | H] [E' | H'].
  - congruence.
  - injection E as -> ->. exfalso. apply Hk.
    change k with (fst (k, v')). now apply in_map.
  - injection E' as -> ->. exfalso. apply Hk.
    change k with (fst (k, v)). now apply in_map.
  - now apply IH.
Qed.

(** With a flat and a sharp in the table, one pass converts the flats,
    or the sharps, or finds neither modifier. *)
Lemma scan_modifiers_cases (t : list (string * string))
      (flat sharp label : string) :
  NoDup (map fst t) -> In ("-", flat) t -> In ("#", sharp) t ->
  (In "-"%char (list_ascii_of_string label)
   /\ scan_modifiers t label = subst_char "-" flat label)
  \/ (In "#"%char (list_ascii_of_string label)
      /\ scan_modifiers t label = subst_char "#" sharp label)
  \/ (~ In "-"%char (list_ascii_of_string label)
      /\ ~ In "#"%char (list_ascii_of_string label)
      /\ scan_modifiers t label = label).
Proof.
  intros Hd Hf Hs.
  destruct (scan_modifiers_first t label)
    as [(before & c & glyph & after & E & Hc & _ & Hr) | (Hn & Hr)].
  - assert (Hin : In (String c "", glyph) t)
      by (rewrite E; apply in_or_app; right; left; reflexivity).
    destruct Hc as (c' & Ec & [-> | ->] & Hl); injection Ec as ->.
    + left. split; [exact Hl|].
      now rewrite (dict_value_unique t "-" flat glyph Hd Hf Hin).
    + right. left. split; [exact Hl|].
      now rewrite (dict_value_unique t "#" sharp glyph Hd Hs Hin).
  - right. right. split; [|split; [|exact Hr]].
    + intros Hl. apply (Hn _ _ Hf). exists "-"%char. auto.
    + intros Hl. apply (Hn _ _ Hs). exists "#"%char. auto.
Qed.

Lemma scan_modifiers_absent (t : list (string * string)) (label : string) :
  ~ In "-"%char (list_ascii_of_string label) ->
  ~ In "#"%char (list_ascii_of_string label) ->
  scan_modifiers t label = label.
Proof.
  intros Hm Hh.
  destruct (scan_modifiers_first t label)
    as [(before & c & glyph & after & E & Hc & _ & Hr) | (_ & Hr)];
    [|exact Hr].
  destruct Hc as (c' & Ec & [-> | ->] & Hl); contradiction.
Qed.

Lemma scan_modifiers_filter (t : list (string * string)) (label : string) :
  scan_modifiers (filter usable_entry t) label = scan_modifiers t label.
Proof.
  induction t as [|[m u] t IH]; [reflexivity|].
  cbn [filter scan_modifiers]. unfold usable_entry at 1. cbn [fst].
  destruct (PyString.mem m ["-"; "#"]) eqn:M.
  - cbn [scan_modifiers]. rewrite M, IH. reflexivity.
  - rewrite andb_false_r. exact IH.
Qed.

(** X2.  The entries of the modifier table whose key is not '-' or '#'
    (the double accidentals, the quarter tones, the natural) play no
    part: dropping them from the table changes no result. *)
Theorem accidentalLabelToUnicode_usable_entries
  (unicodeFromModifier : list (string * string)) (label : pyobj) :
  accidentalLabelToUnicode (filter usable_entry unicodeFromModifier) label
  = accidentalLabelToUnicode unicodeFromModifier label.
Proof.
  destruct label; cbn [accidentalLabelToUnicode]; try reflexivity.
  now rewrite scan_modifiers_filter.
Qed.

(** X3.  With a table that holds one glyph for '-' and one for '#',
    none of them containing '-' or '#', a second pass converts the
    modifier that the first pass left: two applications give the label
    with every '-' and every '#' replaced, which holds neither character
    and is a fixed point of the function. *)
Theorem accidentalLabelToUnicode_twice
  (unicodeFromModifier : list (string * string)) (flat sharp label : string) :
  NoDup (map fst unicodeFromModifier) ->
  In ("-", flat) unicodeFromModifier ->
  In ("#", sharp) unicodeFromModifier ->
  clean_glyph flat -> clean_glyph sharp ->
  let both := subst_char "#" sharp (subst_char "-" flat label) in
  accidentalLabelToUnicode unicodeFromModifier
    (accidentalLabelToUnicode unicodeFromModifier (PyStr label))
  = PyStr both
  /\ accidentalLabelToUnicode unicodeFromModifier (PyStr both) = PyStr both
  /\ clean_glyph both.
Proof.
  intros Hd Hf Hs Cf Cs both.
  assert (Hclean : clean_glyph both).
  { unfold both, clean_glyph. rewrite !In_subst_char.
    destruct Cf as [Cf1 Cf2], Cs as [Cs1 Cs2]. split; intros H.
    - destruct H as [[_ [[H _] | [_ H]]] | [_ H]]; try congruence; tauto.
    - destruct H as [[H _] | [_ H]]; try congruence; tauto. }
  split; [|split; [|exact Hclean]].
  - cbn [accidentalLabelToUnicode]. f_equal. unfold both.
    destruct (scan_modifiers_cases _ flat sharp label Hd Hf Hs)
      as [(Hl & ->) | [(Hl & ->) | (Hm & Hh & ->)]].
    + destruct (scan_modifiers_cases _ flat sharp (subst_char "-" flat label)
                                     Hd Hf Hs)
        as [(Hl' & _) | [(_ & ->) | (_ & Hh & ->)]].
      * exfalso. apply In_subst_char in Hl'. destruct Cf. tauto.
      * reflexivity.
      * now rewrite (subst_char_absent "#" sharp _ Hh).
    + rewrite (subst_char_commute flat sharp label Cf Cs).
      destruct (scan_modifiers_cases _ flat sharp (subst_char "#" sharp label)
                                     Hd Hf Hs)
        as [(_ & ->) | [(Hl' & _) | (Hm & _ & ->)]].
      * reflexivity.
      * exfalso. apply In_subst_char in Hl'. destruct Cs. tauto.
      * now rewrite (subst_char_absent "-" flat _ Hm).
    + rewrite (scan_modifiers_absent _ label Hm Hh).
      now rewrite (subst_char_absent "-" flat label Hm),
                  (subst_char_absent "#" sharp label Hh).
  - cbn [accidentalLabelToUnicode]. f_equal.
    destruct Hclean. now apply scan_modifiers_absent.
Qed.

Lemma accidentalLabelToUnicode_twice_witness :
  accidentalLabelToUnicode sample_modifiers
    (accidentalLabelToUnicode sample_modifiers (PyStr "C#-"))
  = PyStr (subst_char "#" sharp_glyph (subst_char "-" flat_glyph "C#-"))
  /\ accidentalLabelToUnicode sample_modifiers
       (PyStr (subst_char "#" sharp_glyph (subst_char "-" flat_glyph "C#-")))
     = PyStr (subst_char "#" sharp_glyph (subst_char "-" flat_glyph "C#-"))
  /\ clean_glyph (subst_char "#" sharp_glyph (subst_char "-" flat_glyph "C#-")).
Proof.
  apply (accidentalLabelToUnicode_twice sample_modifiers flat_glyph sharp_glyph "C#-").
  - repeat constructor; cbn; intuition discriminate.
  - cbn; tauto.
  - cbn; tauto.
  - split; cbn; intuition discriminate.
  - split; cbn; intuition discriminate.
Defined.

(** ** getColor on color names *)

Section ColorNames.

Variable css3 : list (string * string).

(** X9.  A string that is, up to case and spaces, one of the eight
    abbreviations of [colorMap] gets the result of the full color name,
    a color or an error alike, whatever the table of CSS3 names. *)
Theorem getColor_abbreviation (s c name : string) :
  In (c, name) colorMap ->
  plain_name s ->
  without_spaces (PyString.lower s) = c ->
  getColor css3 (PyStr s) = getColor css3 (PyStr name).
Proof.
  intros Hin Hp Hc. cbn [getColor isNum].
  destruct (colorMap_entry c name Hin) as (Hl & Hd & Hpn & Hn & Hl').
  rewrite (color_of_string_plain css3 s Hp),
          (color_of_string_plain css3 name Hpn).
  rewrite normalize_name_eq, Hc, Hl, Hd, Hn, Hl'. reflexivity.
Qed.

(** X10.  On a non-empty string that does not start with '#',
    [getColor] has three outcomes and no other: a value that the CSS3
    table stores, under the normalized name or under the full name of
    its abbreviation; the error 'invalid color abbreviation: ...' for a
    one-character name that [colorMap] does not have; the error
    'invalid color name: ...' for a name that the table does not have.
    The normalized name is the string lowercased by the character table
    and without its spaces, and its length is counted in characters. *)
Theorem getColor_name_outcome (s : string) :
  plain_name s ->
  let v := without_spaces (lowercase s) in
  (exists key hex,
      In (key, hex) css3 /\ getColor css3 (PyStr s) = Ok hex
      /\ (String.length v <> 1%nat /\ key = v \/ In (v, key) colorMap))
  \/ (String.length v = 1%nat
      /\ (forall name, ~ In (v, name) colorMap)
      /\ getColor css3 (PyStr s)
         = Raise (GraphException ("invalid color abbreviation: " ++ v)))
  \/ (exists name,
         (String.length v <> 1%nat /\ name = v \/ In (v, name) colorMap)
         /\ (forall hex, ~ In (name, hex) css3)
         /\ getColor css3 (PyStr s)
            = Raise (GraphException ("invalid color name: " ++ name))).
Proof.
  intros Hp v. cbn [getColor isNum].
  rewrite (color_of_string_plain css3 s Hp), normalize_name_lowercase. fold v.
  destruct (String.length v =? 1)%nat eqn:L.
  - destruct (dict_get colorMap v) as [name|] eqn:M; cbn [bind].
    + apply dict_get_In in M.
      destruct (dict_get css3 name) as [hex|] eqn:D.
      * left. exists name, hex. apply dict_get_In in D. auto.
      * right. right. exists name. split; [auto|]. split; [|reflexivity].
        now apply dict_get_None.
    + right. left. apply Nat.eqb_eq in L. split; [exact L|].
      split; [now apply dict_get_None | reflexivity].
  - apply Nat.eqb_neq in L. cbn [bind].
    destruct (dict_get css3 v) as [hex|] eqn:D.
    + left. exists v, hex. apply dict_get_In in D. auto.
    + right. right. exists v. split; [auto|]. split; [|reflexivity].
      now apply dict_get_None.
Qed.

(** X11.  On non-empty strings that do not start with '#', the result
    of [getColor] does not change when a space is inserted, nor when a
    character is replaced by its lowercase form of the character
    table. *)
Theorem getColor_name_insensitive (s1 s2 : string) (c : ascii) :
  plain_name (s1 ++ s2) ->
  plain_name (s1 ++ String c s2) ->
  getColor css3 (PyStr (s1 ++ String " " s2)) = getColor css3 (PyStr (s1 ++ s2))
  /\ getColor css3 (PyStr (s1 ++ String c s2))
     = getColor css3 (PyStr (s1 ++ String (lowercase_char c) s2)).
Proof.
  intros Hp Hq. cbn [getColor isNum]. rewrite <- lower_char_lowercase.
  assert (Hp' : plain_name (s1 ++ String " " s2)).
  { destruct s1 as [|a s1]; cbn [append] in *.
    - exists " "%char, s2. split; [reflexivity | discriminate].
    - destruct Hp as (c0 & rest & E & Hc). injection E as <- _.
      now exists a, (s1 ++ String " " s2). }
  assert (Hq' : plain_name (s1 ++ String (PyString.lower_char c) s2)).
  { destruct s1 as [|a s1]; cbn [append] in *;
      destruct Hq as (c0 & rest & E & Hc); injection E as <- _.
    - eexists _, _. split; [reflexivity|].
      intros E. apply Hc. apply Ascii.eqb_eq.
      rewrite <- lower_char_hash. now apply Ascii.eqb_eq.
    - now eexists _, _. }
  rewrite (color_of_string_plain _ _ Hp), (color_of_string_plain _ _ Hp').
  rewrite (color_of_string_plain _ _ Hq), (color_of_string_plain _ _ Hq').
  now rewrite normalize_name_space, <- normalize_name_case.
Qed.

End ColorNames.

Lemma getColor_name_outcome_witness :
  (exists key hex,
      In (key, hex) css3_sample
      /\ getColor css3_sample (PyStr "Steel Blue") = Ok hex
      /\ (String.length (without_spaces (lowercase "Steel Blue")) <> 1%nat
          /\ key = without_spaces (lowercase "Steel Blue")
          \/ In (without_spaces (lowercase "Steel Blue"), key) colorMap))
  \/ (String.length (without_spaces (lowercase "Steel Blue")) = 1%nat
      /\ (forall name,
             ~ In (without_spaces (lowercase "Steel Blue"), name) colorMap)
      /\ getColor css3_sample (PyStr "Steel Blue")
         = Raise (GraphException
                    ("invalid color abbreviation: "
                     ++ without_spaces (lowercase "Steel Blue"))))
  \/ (exists name,
         (String.length (without_spaces (lowercase "Steel Blue")) <> 1%nat
          /\ name = without_spaces (lowercase "Steel Blue")
          \/ In (without_spaces (lowercase "Steel Blue"), name) colorMap)
         /\ (forall hex, ~ In (name, hex) css3_sample)
         /\ getColor css3_sample (PyStr "Steel Blue")
            = Raise (GraphException ("invalid color name: " ++ name))).
Proof.
  apply (getColor_name_outcome css3_sample "Steel Blue").
  exists "S"%char, "teel Blue". split; [reflexivity | discriminate].
Defined.

Lemma getColor_abbreviation_witness :
  getColor css3_sample (PyStr " R") = getColor css3_sample (PyStr "red").
Proof.
  apply (getColor_abbreviation css3_sample " R" "r" "red").
  - cbn; tauto.
  - exists " "%char, "R". split; [reflexivity | discriminate].
  - reflexivity.
Defined.

Lemma getColor_name_insensitive_witness :
  getColor css3_sample (PyStr "Steel Blue") = getColor css3_sample (PyStr "SteelBlue")
  /\ getColor css3_sample (PyStr "SteelXBlue")
     = getColor css3_sample (PyStr "SteelxBlue").
Proof.
  apply (getColor_name_insensitive css3_sample "Steel" "Blue" "X"%char).
  - exists "S"%char, "teelBlue". split; [reflexivity | discriminate].
  - exists "S"%char, "teelXBlue". split; [reflexivity | discriminate].
Defined.
